(** * LMS demo backend: users, courses and login services

    A shallow embedding of the NestJS services of the repository
    ([users.service.ts], [courses.service.ts], [auth.service.ts]), of the
    DTO classes they exchange with the controllers, and of the part of the
    global [ValidationPipe] that the controllers rely on.

    Conventions of the embedding:
    - a JavaScript number that holds an identifier, a page, a limit, a
      duration or a count is a [Z]; prices and ratings are rationals [Q];
    - a [Date] is its number of milliseconds since the epoch, a [Z]; every
      [new Date()] of the source is an explicit clock reading passed to the
      operation;
    - an optional property ([name?: T]) is an [option]: [None] is the absent
      (undefined) property, and a property the request does not carry is
      absent from the DTO instance; present properties hold values of their
      declared type;
    - strings are [string]; [toLowerCase] folds the ASCII letters only;
    - a service is its private fields ([users], [nextId]); a method is a
      state transformer that returns either the thrown exception or the
      returned value, together with the fields after the call. *)

From Stdlib Require Import ZArith QArith Ascii String List Bool Lia.
From stdpp Require Import base option list gmap strings.

Local Open Scope string_scope.
Local Open Scope Z_scope.

(** ** JavaScript primitives used by the services *)

Module Js.

(** [String.prototype.toLowerCase], on ASCII. *)
Definition lower_ascii (c : ascii) : ascii :=
  let n := N_of_ascii c in
  if ((65 <=? n) && (n <=? 90))%N then ascii_of_N (n + 32) else c.

Fixpoint toLowerCase (s : string) : string :=
  match s with
  | EmptyString => EmptyString
  | String c s' => String (lower_ascii c) (toLowerCase s')
  end.

(** [String.prototype.includes]: [sub] occurs somewhere in [s]. *)
Fixpoint includes (s sub : string) : bool :=
  String.prefix sub s
  || match s with
     | EmptyString => false
     | String _ s' => includes s' sub
     end.

(** Truthiness of a string value: every string but the empty one. *)
Definition truthy_string (s : string) : bool :=
  negb (String.eqb s EmptyString).

(** [v || d] on an optional number: [undefined] and [0] are falsy. *)
Definition or_number (v : option Z) (d : Z) : Z :=
  match v with
  | Some n => if n =? 0 then d else n
  | None => d
  end.

(** [v || d] on an optional string: [undefined] and [''] are falsy. *)
Definition or_string (v : option string) (d : string) : string :=
  match v with
  | Some s => if truthy_string s then s else d
  | None => d
  end.

(** The clamping of one bound of [Array.prototype.slice]: a negative
    bound counts from the end of the array. *)
Definition relative_index (len k : Z) : Z :=
  if k <? 0 then Z.max (len + k) 0 else Z.min k len.

(** [Array.prototype.slice(start, end)]. *)
Definition slice {A : Type} (l : list A) (start end_ : Z) : list A :=
  let len := Z.of_nat (length l) in
  let k := relative_index len start in
  let final := relative_index len end_ in
  take (Z.to_nat (final - k)) (drop (Z.to_nat k) l).

(** [new Date('yyyy-mm-dd')], given as whole days since the epoch. *)
Definition Date_of_days (days : Z) : Z := days * 86400000.

End Js.

(** ** Exceptions of [@nestjs/common] thrown by the code *)

Inductive HttpException : Type :=
| NotFoundException        (* the spec's NotFoundError *)
| ConflictException        (* the spec's ConflictError *)
| BadRequestException      (* the spec's ValidationError *)
| UnauthorizedException.   (* the spec's AuthenticationError *)

(** ** Methods: state and exception passing *)

Definition Method (S A : Type) : Type := S -> (HttpException + A) * S.

Definition ret {S A} (a : A) : Method S A := fun s => (inr a, s).

Definition throw {S A} (e : HttpException) : Method S A := fun s => (inl e, s).

Definition bind {S A B} (m : Method S A) (k : A -> Method S B) : Method S B :=
  fun s =>
    match m s with
    | (inl e, s') => (inl e, s')
    | (inr a, s') => k a s'
    end.

Definition get {S} : Method S S := fun s => (inr s, s).

Definition put {S} (s : S) : Method S unit := fun _ => (inr tt, s).

Declare Scope method_scope.
Delimit Scope method_scope with method.
Notation "x <- m ;; k" := (bind m (fun x => k))
  (at level 100, m at next level, right associativity) : method_scope.
Notation "m ;;; k" := (bind m (fun _ => k))
  (at level 100, right associativity) : method_scope.

(** The list envelope returned by both [findAll] methods
    ([UserListResponseDto], [CourseListResponseDto]). *)
Record ListResponseDto (A : Type) : Type := mkList {
  data : list A;
  total : Z;
  page : Z;
  limit : Z
}.
Arguments mkList {A}.
Arguments data {A}.
Arguments total {A}.
Arguments page {A}.
Arguments limit {A}.

(** The pagination block shared, line for line, by [UsersService.findAll]
    (lines 69-80) and [CoursesService.findAll] (lines 100-111). *)
Definition paginate {A : Type} (filtered : list A)
    (query_page query_limit : option Z) : ListResponseDto A :=
  let total := Z.of_nat (length filtered) in
  let page := Js.or_number query_page 1 in
  let limit := Js.or_number query_limit 10 in
  let start := (page - 1) * limit in
  let end_ := start + limit in
  {| data := Js.slice filtered start end_;
     total := total;
     page := page;
     limit := limit |}.

(** ** [src/users]: DTOs and [UsersService] *)

Module Users.

(** [enum UserRole] and [enum UserStatus] of [user.dto.ts]. *)
Inductive UserRole : Type := STUDENT | INSTRUCTOR | ADMIN.
Inductive UserStatus : Type := ACTIVE | INACTIVE | SUSPENDED.

#[export] Instance UserRole_eq_dec : EqDecision UserRole.
Proof. solve_decision. Defined.
#[export] Instance UserStatus_eq_dec : EqDecision UserStatus.
Proof. solve_decision. Defined.

Module CreateUserDto.
Record t : Type := mk {
  email : string;
  password : string;
  firstName : string;
  lastName : string;
  role : UserRole;
  phone : option string;
  bio : option string
}.
End CreateUserDto.

Module UpdateUserDto.
Record t : Type := mk {
  firstName : option string;
  lastName : option string;
  phone : option string;
  bio : option string;
  status : option UserStatus
}.
End UpdateUserDto.

Module QueryUserDto.
Record t : Type := mk {
  search : option string;
  role : option UserRole;
  status : option UserStatus;
  page : option Z;
  limit : option Z
}.
End QueryUserDto.

Record UserResponseDto : Type := mkUser {
  id : Z;
  email : string;
  firstName : string;
  lastName : string;
  fullName : string;
  role : UserRole;
  status : UserStatus;
  phone : option string;
  bio : option string;
  createdAt : Z;
  updatedAt : Z
}.

(** The private fields of the service. *)
Record UsersService : Type := mkService {
  users : list UserResponseDto;
  nextId : Z
}.

(** The field initialisers (lines 6-46). *)
Definition initial : UsersService :=
  {| users :=
       [ {| id := 1; email := "admin@lms.com";
            firstName := "Admin"; lastName := "User"; fullName := "Admin User";
            role := ADMIN; status := ACTIVE;
            phone := Some "+1234567890"; bio := Some "System Administrator";
            createdAt := Js.Date_of_days 20454; updatedAt := Js.Date_of_days 20454 |};
         {| id := 2; email := "instructor@lms.com";
            firstName := "Jane"; lastName := "Smith"; fullName := "Jane Smith";
            role := INSTRUCTOR; status := ACTIVE;
            phone := Some "+1234567891";
            bio := Some "Senior Instructor with 10+ years experience";
            createdAt := Js.Date_of_days 20468; updatedAt := Js.Date_of_days 20468 |};
         {| id := 3; email := "student@lms.com";
            firstName := "Bob"; lastName := "Johnson"; fullName := "Bob Johnson";
            role := STUDENT; status := ACTIVE;
            phone := None; bio := None;
            createdAt := Js.Date_of_days 20485; updatedAt := Js.Date_of_days 20485 |} ];
     nextId := 4 |}.

(** The three filter callbacks of [findAll] (lines 54-57, 62, 66). *)
Definition search_matches (searchLower : string) (user : UserResponseDto) : bool :=
  Js.includes (Js.toLowerCase (firstName user)) searchLower
  || Js.includes (Js.toLowerCase (lastName user)) searchLower
  || Js.includes (Js.toLowerCase (email user)) searchLower.

Definition role_matches (r : UserRole) (user : UserResponseDto) : bool :=
  bool_decide (role user = r).

Definition status_matches (s : UserStatus) (user : UserResponseDto) : bool :=
  bool_decide (status user = s).

(** Lines 49-67 of [findAll]: the successive [if (query.x) filter]. *)
Definition apply_filters (this : UsersService) (query : QueryUserDto.t)
    : list UserResponseDto :=
  let filteredUsers := users this in
  let filteredUsers :=
    match QueryUserDto.search query with
    | Some s =>
        if Js.truthy_string s
        then List.filter (search_matches (Js.toLowerCase s)) filteredUsers
        else filteredUsers
    | None => filteredUsers
    end in
  let filteredUsers :=
    match QueryUserDto.role query with
    | Some r => List.filter (role_matches r) filteredUsers
    | None => filteredUsers
    end in
  let filteredUsers :=
    match QueryUserDto.status query with
    | Some s => List.filter (status_matches s) filteredUsers
    | None => filteredUsers
    end in
  filteredUsers.

(** [findAll] reads [this.users] and neither throws nor assigns. *)
Definition findAll (this : UsersService) (query : QueryUserDto.t)
    : ListResponseDto UserResponseDto :=
  paginate (apply_filters this query)
           (QueryUserDto.page query) (QueryUserDto.limit query).

(** [this.users.find(u => u.id === id)] and [findIndex] of the same
    callback: the first match, with its index. *)
Definition find_by_id (i : Z) (l : list UserResponseDto)
    : option (nat * UserResponseDto) :=
  list_find (fun u => id u = i) l.

Definition findOne (i : Z) : Method UsersService UserResponseDto :=
  (this <- get ;;
   match find_by_id i (users this) with
   | None => throw NotFoundException
   | Some (_, user) => ret user
   end)%method.

Definition findByEmail (this : UsersService) (e : string)
    : option UserResponseDto :=
  List.find (fun u => String.eqb (email u) e) (users this).

(** [create]; [t_created] and [t_updated] are the two [new Date()]. *)
Definition create (createUserDto : CreateUserDto.t) (t_created t_updated : Z)
    : Method UsersService UserResponseDto :=
  (this <- get ;;
   match findByEmail this (CreateUserDto.email createUserDto) with
   | Some _ => throw ConflictException
   | None =>
       let newUser :=
         {| id := nextId this;
            email := CreateUserDto.email createUserDto;
            firstName := CreateUserDto.firstName createUserDto;
            lastName := CreateUserDto.lastName createUserDto;
            fullName := CreateUserDto.firstName createUserDto ++ " "
                        ++ CreateUserDto.lastName createUserDto;
            role := CreateUserDto.role createUserDto;
            status := ACTIVE;
            phone := CreateUserDto.phone createUserDto;
            bio := CreateUserDto.bio createUserDto;
            createdAt := t_created;
            updatedAt := t_updated |} in
       put {| users := users this ++ [newUser]; nextId := nextId this + 1 |} ;;;
       ret newUser
   end)%method.

(** A property of the spread [{...existing, ...updateUserDto}]: the
    patch's value when the patch has the property, else the existing one. *)
Definition spread {A : Type} (existing : A) (patch : option A) : A :=
  match patch with
  | Some v => v
  | None => existing
  end.

Definition truthy_opt (v : option string) : bool :=
  match v with
  | Some s => Js.truthy_string s
  | None => false
  end.

(** [update]; [now] is the [new Date()] of line 131. The optional
    properties [phone] and [bio] of the stored record are themselves
    options, so the spread keeps [existing] when the patch has none. *)
Definition update (i : Z) (updateUserDto : UpdateUserDto.t) (now : Z)
    : Method UsersService UserResponseDto :=
  (this <- get ;;
   match find_by_id i (users this) with
   | None => throw NotFoundException
   | Some (userIndex, existing) =>
       let updatedUser :=
         {| id := id existing;
            email := email existing;
            firstName := spread (firstName existing) (UpdateUserDto.firstName updateUserDto);
            lastName := spread (lastName existing) (UpdateUserDto.lastName updateUserDto);
            fullName :=
              if truthy_opt (UpdateUserDto.firstName updateUserDto)
                 || truthy_opt (UpdateUserDto.lastName updateUserDto)
              then Js.or_string (UpdateUserDto.firstName updateUserDto) (firstName existing)
                   ++ " "
                   ++ Js.or_string (UpdateUserDto.lastName updateUserDto) (lastName existing)
              else fullName existing;
            role := role existing;
            status := spread (status existing) (UpdateUserDto.status updateUserDto);
            phone := match UpdateUserDto.phone updateUserDto with
                     | Some p => Some p
                     | None => phone existing
                     end;
            bio := match UpdateUserDto.bio updateUserDto with
                   | Some b => Some b
                   | None => bio existing
                   end;
            createdAt := createdAt existing;
            updatedAt := now |} in
       put {| users := <[userIndex := updatedUser]> (users this);
              nextId := nextId this |} ;;;
       ret updatedUser
   end)%method.

(** [remove]: [splice(userIndex, 1)]. *)
Definition remove (i : Z) : Method UsersService unit :=
  (this <- get ;;
   match find_by_id i (users this) with
   | None => throw NotFoundException
   | Some (userIndex, _) =>
       put {| users := delete userIndex (users this); nextId := nextId this |}
   end)%method.

End Users.

(** ** [src/courses]: DTOs and [CoursesService] *)

Module Courses.

(** [enum CourseLevel] and [enum CourseStatus] of [course.dto.ts]. *)
Inductive CourseLevel : Type := BEGINNER | INTERMEDIATE | ADVANCED.
Inductive CourseStatus : Type := DRAFT | PUBLISHED | ARCHIVED.

#[export] Instance CourseLevel_eq_dec : EqDecision CourseLevel.
Proof. solve_decision. Defined.
#[export] Instance CourseStatus_eq_dec : EqDecision CourseStatus.
Proof. solve_decision. Defined.

Module CreateCourseDto.
Record t : Type := mk {
  title : string;
  description : string;
  level : CourseLevel;
  duration : Z;
  price : Q;
  instructorId : option Z;
  tags : option (list string)
}.
End CreateCourseDto.

Module UpdateCourseDto.
Record t : Type := mk {
  title : option string;
  description : option string;
  level : option CourseLevel;
  duration : option Z;
  price : option Q;
  status : option CourseStatus;
  tags : option (list string)
}.
End UpdateCourseDto.

Module QueryCourseDto.
Record t : Type := mk {
  search : option string;
  level : option CourseLevel;
  status : option CourseStatus;
  instructorId : option Z;
  minPrice : option Q;
  maxPrice : option Q;
  page : option Z;
  limit : option Z
}.
End QueryCourseDto.

(** The denormalised instructor snapshot of [CourseResponseDto]. *)
Module Instructor.
Record t : Type := mk {
  id : Z;
  name : string;
  email : string
}.
End Instructor.

Record CourseResponseDto : Type := mkCourse {
  id : Z;
  title : string;
  description : string;
  level : CourseLevel;
  duration : Z;
  price : Q;
  status : CourseStatus;
  instructor : Instructor.t;
  tags : list string;
  rating : Q;
  enrolledStudents : Z;
  createdAt : Z;
  updatedAt : Z
}.

Record CoursesService : Type := mkService {
  courses : list CourseResponseDto;
  nextId : Z
}.

Definition jane : Instructor.t :=
  {| Instructor.id := 2; Instructor.name := "Jane Smith";
     Instructor.email := "instructor@lms.com" |}.

(** The field initialisers (lines 6-66). *)
Definition initial : CoursesService :=
  {| courses :=
       [ {| id := 1; title := "Complete NestJS Bootcamp";
            description := "Learn NestJS from scratch to advanced level with real-world projects";
            level := BEGINNER; duration := 20; price := 9999 # 100;
            status := PUBLISHED; instructor := jane;
            tags := ["nestjs"; "backend"; "typescript"];
            rating := 45 # 10; enrolledStudents := 150;
            createdAt := Js.Date_of_days 20485; updatedAt := Js.Date_of_days 20494 |};
         {| id := 2; title := "Advanced TypeScript Patterns";
            description := "Master advanced TypeScript concepts and design patterns";
            level := ADVANCED; duration := 15; price := 14999 # 100;
            status := PUBLISHED; instructor := jane;
            tags := ["typescript"; "advanced"; "patterns"];
            rating := 48 # 10; enrolledStudents := 89;
            createdAt := Js.Date_of_days 20468; updatedAt := Js.Date_of_days 20489 |};
         {| id := 3; title := "React Fundamentals";
            description := "Build modern web applications with React";
            level := BEGINNER; duration := 12; price := 7999 # 100;
            status := PUBLISHED; instructor := jane;
            tags := ["react"; "frontend"; "javascript"];
            rating := 43 # 10; enrolledStudents := 230;
            createdAt := Js.Date_of_days 20473; updatedAt := Js.Date_of_days 20492 |} ];
     nextId := 4 |}.

(** The six filter callbacks of [findAll] (lines 74-97). *)
Definition search_matches (searchLower : string) (course : CourseResponseDto) : bool :=
  Js.includes (Js.toLowerCase (title course)) searchLower
  || Js.includes (Js.toLowerCase (description course)) searchLower.

Definition level_matches (l : CourseLevel) (course : CourseResponseDto) : bool :=
  bool_decide (level course = l).

Definition status_matches (s : CourseStatus) (course : CourseResponseDto) : bool :=
  bool_decide (status course = s).

Definition instructor_matches (i : Z) (course : CourseResponseDto) : bool :=
  Instructor.id (instructor course) =? i.

Definition minPrice_matches (p : Q) (course : CourseResponseDto) : bool :=
  Qle_bool p (price course).

Definition maxPrice_matches (p : Q) (course : CourseResponseDto) : bool :=
  Qle_bool (price course) p.

(** Lines 69-98 of [findAll]. [search] and [instructorId] are tested for
    truthiness, [minPrice] and [maxPrice] against [undefined]. *)
Definition apply_filters (this : CoursesService) (query : QueryCourseDto.t)
    : list CourseResponseDto :=
  let filteredCourses := courses this in
  let filteredCourses :=
    match QueryCourseDto.search query with
    | Some s =>
        if Js.truthy_string s
        then List.filter (search_matches (Js.toLowerCase s)) filteredCourses
        else filteredCourses
    | None => filteredCourses
    end in
  let filteredCourses :=
    match QueryCourseDto.level query with
    | Some l => List.filter (level_matches l) filteredCourses
    | None => filteredCourses
    end in
  let filteredCourses :=
    match QueryCourseDto.status query with
    | Some s => List.filter (status_matches s) filteredCourses
    | None => filteredCourses
    end in
  let filteredCourses :=
    match QueryCourseDto.instructorId query with
    | Some i =>
        if i =? 0 then filteredCourses
        else List.filter (instructor_matches i) filteredCourses
    | None => filteredCourses
    end in
  let filteredCourses :=
    match QueryCourseDto.minPrice query with
    | Some p => List.filter (minPrice_matches p) filteredCourses
    | None => filteredCourses
    end in
  let filteredCourses :=
    match QueryCourseDto.maxPrice query with
    | Some p => List.filter (maxPrice_matches p) filteredCourses
    | None => filteredCourses
    end in
  filteredCourses.

Definition findAll (this : CoursesService) (query : QueryCourseDto.t)
    : ListResponseDto CourseResponseDto :=
  paginate (apply_filters this query)
           (QueryCourseDto.page query) (QueryCourseDto.limit query).

Definition find_by_id (i : Z) (l : list CourseResponseDto)
    : option (nat * CourseResponseDto) :=
  list_find (fun c => id c = i) l.

Definition findOne (i : Z) : Method CoursesService CourseResponseDto :=
  (this <- get ;;
   match find_by_id i (courses this) with
   | None => throw NotFoundException
   | Some (_, course) => ret course
   end)%method.

(** [create]; [t_created] and [t_updated] are the two [new Date()]. *)
Definition create (createCourseDto : CreateCourseDto.t) (t_created t_updated : Z)
    : Method CoursesService CourseResponseDto :=
  (this <- get ;;
   let newCourse :=
     {| id := nextId this;
        title := CreateCourseDto.title createCourseDto;
        description := CreateCourseDto.description createCourseDto;
        level := CreateCourseDto.level createCourseDto;
        duration := CreateCourseDto.duration createCourseDto;
        price := CreateCourseDto.price createCourseDto;
        status := DRAFT;
        instructor :=
          {| Instructor.id := Js.or_number (CreateCourseDto.instructorId createCourseDto) 2;
             Instructor.name := "Jane Smith";
             Instructor.email := "instructor@lms.com" |};
        tags := match CreateCourseDto.tags createCourseDto with
                | Some ts => ts
                | None => []
                end;
        rating := 0;
        enrolledStudents := 0;
        createdAt := t_created;
        updatedAt := t_updated |} in
   put {| courses := courses this ++ [newCourse]; nextId := nextId this + 1 |} ;;;
   ret newCourse)%method.

Definition spread {A : Type} (existing : A) (patch : option A) : A :=
  match patch with
  | Some v => v
  | None => existing
  end.

(** [update]; [now] is the [new Date()] of line 156. *)
Definition update (i : Z) (updateCourseDto : UpdateCourseDto.t) (now : Z)
    : Method CoursesService CourseResponseDto :=
  (this <- get ;;
   match find_by_id i (courses this) with
   | None => throw NotFoundException
   | Some (courseIndex, existing) =>
       let updatedCourse :=
         {| id := id existing;
            title := spread (title existing) (UpdateCourseDto.title updateCourseDto);
            description := spread (description existing)
                                  (UpdateCourseDto.description updateCourseDto);
            level := spread (level existing) (UpdateCourseDto.level updateCourseDto);
            duration := spread (duration existing) (UpdateCourseDto.duration updateCourseDto);
            price := spread (price existing) (UpdateCourseDto.price updateCourseDto);
            status := spread (status existing) (UpdateCourseDto.status updateCourseDto);
            instructor := instructor existing;
            tags := spread (tags existing) (UpdateCourseDto.tags updateCourseDto);
            rating := rating existing;
            enrolledStudents := enrolledStudents existing;
            createdAt := createdAt existing;
            updatedAt := now |} in
       put {| courses := <[courseIndex := updatedCourse]> (courses this);
              nextId := nextId this |} ;;;
       ret updatedCourse
   end)%method.

Definition remove (i : Z) : Method CoursesService unit :=
  (this <- get ;;
   match find_by_id i (courses this) with
   | None => throw NotFoundException
   | Some (courseIndex, _) =>
       put {| courses := delete courseIndex (courses this); nextId := nextId this |}
   end)%method.

End Courses.

(** ** [src/auth]: [AuthService.login] *)

Module Auth.

(** [LoginDto] of [dto/login.dto.ts]. *)
Module LoginDto.
Record t : Type := mk {
  email : string;
  password : string
}.
End LoginDto.

(** An entry of the [demoUsers] table (lines 11-33). *)
Module DemoUser.
Record t : Type := mk {
  email : string;
  password : string;
  id : Z;
  name : string;
  role : string
}.
End DemoUser.

(** The object handed to [jwtService.sign] (line 43). *)
Module Payload.
Record t : Type := mk {
  email : string;
  sub : Z;
  role : string
}.
End Payload.

(** The [user] property of [LoginResponseDto]. *)
Module PublicUser.
Record t : Type := mk {
  id : Z;
  email : string;
  name : string;
  role : string
}.
End PublicUser.

Record LoginResponseDto : Type := mkLogin {
  access_token : string;
  token_type : string;
  expires_in : Z;
  user : PublicUser.t
}.

Definition demoUsers : list DemoUser.t :=
  [ {| DemoUser.email := "user@example.com"; DemoUser.password := "password123";
       DemoUser.id := 1; DemoUser.name := "John Doe"; DemoUser.role := "student" |};
    {| DemoUser.email := "admin@lms.com"; DemoUser.password := "admin123";
       DemoUser.id := 2; DemoUser.name := "Admin User"; DemoUser.role := "admin" |};
    {| DemoUser.email := "instructor@lms.com"; DemoUser.password := "instructor123";
       DemoUser.id := 3; DemoUser.name := "Jane Smith"; DemoUser.role := "instructor" |} ].

(** The callback of [demoUsers.find] (line 36). *)
Definition credentials_match (loginDto : LoginDto.t) (u : DemoUser.t) : bool :=
  String.eqb (DemoUser.email u) (LoginDto.email loginDto)
  && String.eqb (DemoUser.password u) (LoginDto.password loginDto).

Section WithJwtService.

(** [JwtService.sign] of [@nestjs/jwt], injected into the service. *)
Variable sign : Payload.t -> string.

Definition login (loginDto : LoginDto.t) : HttpException + LoginResponseDto :=
  match List.find (credentials_match loginDto) demoUsers with
  | None => inl UnauthorizedException
  | Some user =>
      let payload :=
        {| Payload.email := DemoUser.email user;
           Payload.sub := DemoUser.id user;
           Payload.role := DemoUser.role user |} in
      inr {| access_token := sign payload;
             token_type := "Bearer";
             expires_in := 604800;
             user := {| PublicUser.id := DemoUser.id user;
                        PublicUser.email := DemoUser.email user;
                        PublicUser.name := DemoUser.name user;
                        PublicUser.role := DemoUser.role user |} |}
  end.

End WithJwtService.

End Auth.

(** ** The global [ValidationPipe] of [main.ts]

    [new ValidationPipe({ whitelist: true, forbidNonWhitelisted: true,
    transform: true })] checks every [@Query()] and [@Body()] object
    against the decorators of its DTO class before the controller method
    runs. A request object is a finite map from property names to values;
    the values are the JSON scalars, a number being either an integer or
    not ([NaN], a fraction, an infinity). [null], arrays and nested
    objects are left out of the model. *)

Module Validation.

Inductive JsValue : Type :=
| JString (s : string)
| JInteger (z : Z)
| JNonInteger
| JBoolean (b : bool).

(** The decorators of [class-validator] used on the modelled DTOs. *)
Definition IsString (v : JsValue) : bool :=
  match v with JString _ => true | _ => false end.

Definition IsInt (v : JsValue) : bool :=
  match v with JInteger _ => true | _ => false end.

Definition IsEnum (values : list string) (v : JsValue) : bool :=
  match v with
  | JString s => existsb (String.eqb s) values
  | _ => false
  end.

(** The decorated properties of a DTO class, each with the conjunction of
    its validators. Every property modelled here carries [@IsOptional()]:
    an absent property is not validated. *)
Definition Schema : Type := list (string * (JsValue -> bool)).

(** [forbidNonWhitelisted]: a property without decorator is an error. *)
Definition whitelisted (schema : Schema) (o : gmap string JsValue) : bool :=
  bool_decide (map_Forall (fun k _ => k ∈ schema.*1) o).

Definition valid_properties (schema : Schema) (o : gmap string JsValue) : bool :=
  forallb (fun p : string * (JsValue -> bool) =>
             match o !! p.1 with
             | Some v => p.2 v
             | None => true
             end) schema.

Definition validate (schema : Schema) (o : gmap string JsValue) : bool :=
  whitelisted schema o && valid_properties schema o.

Definition as_string (v : JsValue) : option string :=
  match v with JString s => Some s | _ => None end.

Definition as_integer (v : JsValue) : option Z :=
  match v with JInteger z => Some z | _ => None end.

(** Reading a property of the validated object at its declared type. *)
Definition get_string (o : gmap string JsValue) (k : string) : option string :=
  match o !! k with Some v => as_string v | None => None end.

Definition get_integer (o : gmap string JsValue) (k : string) : option Z :=
  match o !! k with Some v => as_integer v | None => None end.

Definition get_enum {E : Type} (of_string : string -> option E)
    (o : gmap string JsValue) (k : string) : option E :=
  match get_string o k with Some s => of_string s | None => None end.

End Validation.

(** ** [UsersController]: the two routes whose validation matters *)

Module UsersController.
Import Validation.

Definition UserRole_values : list string := ["student"; "instructor"; "admin"].
Definition UserStatus_values : list string := ["active"; "inactive"; "suspended"].

Definition UserRole_of_string (s : string) : option Users.UserRole :=
  if String.eqb s "student" then Some Users.STUDENT
  else if String.eqb s "instructor" then Some Users.INSTRUCTOR
  else if String.eqb s "admin" then Some Users.ADMIN
  else None.

Definition UserStatus_of_string (s : string) : option Users.UserStatus :=
  if String.eqb s "active" then Some Users.ACTIVE
  else if String.eqb s "inactive" then Some Users.INACTIVE
  else if String.eqb s "suspended" then Some Users.SUSPENDED
  else None.

(** The decorators of [QueryUserDto] ([user.dto.ts], lines 217-263);
    [page] and [limit] have been through [@Type(() => Number)]. *)
Definition QueryUserDto_schema : Schema :=
  [ ("search", IsString);
    ("role", IsEnum UserRole_values);
    ("status", IsEnum UserStatus_values);
    ("page", IsInt);
    ("limit", IsInt) ].

(** The decorators of [UpdateUserDto] (lines 78-119). *)
Definition UpdateUserDto_schema : Schema :=
  [ ("firstName", IsString);
    ("lastName", IsString);
    ("phone", IsString);
    ("bio", IsString);
    ("status", IsEnum UserStatus_values) ].

(** [transform: true]: the instance of the DTO class. [page] and [limit]
    start from the class's initialisers [= 1] and [= 10]. *)
Definition to_QueryUserDto (o : gmap string JsValue) : Users.QueryUserDto.t :=
  {| Users.QueryUserDto.search := get_string o "search";
     Users.QueryUserDto.role := get_enum UserRole_of_string o "role";
     Users.QueryUserDto.status := get_enum UserStatus_of_string o "status";
     Users.QueryUserDto.page := Some (default 1 (get_integer o "page"));
     Users.QueryUserDto.limit := Some (default 10 (get_integer o "limit")) |}.

Definition to_UpdateUserDto (o : gmap string JsValue) : Users.UpdateUserDto.t :=
  {| Users.UpdateUserDto.firstName := get_string o "firstName";
     Users.UpdateUserDto.lastName := get_string o "lastName";
     Users.UpdateUserDto.phone := get_string o "phone";
     Users.UpdateUserDto.bio := get_string o "bio";
     Users.UpdateUserDto.status := get_enum UserStatus_of_string o "status" |}.

(** [GET /users]: [findAll(@Query() query: QueryUserDto)]. *)
Definition findAll (query : gmap string JsValue)
    : Method Users.UsersService (ListResponseDto Users.UserResponseDto) :=
  if validate QueryUserDto_schema query
  then (this <- get ;; ret (Users.findAll this (to_QueryUserDto query)))%method
  else throw BadRequestException.

(** [PATCH /users/:id]: [update(@Param('id', ParseIntPipe) id,
    @Body() updateUserDto: UpdateUserDto)]; [i] is the parsed [id]. *)
Definition update (i : Z) (body : gmap string JsValue) (now : Z)
    : Method Users.UsersService Users.UserResponseDto :=
  if validate UpdateUserDto_schema body
  then Users.update i (to_UpdateUserDto body) now
  else throw BadRequestException.

End UsersController.

(** ** [CoursesController]: the validated update route *)

Module CoursesController.
Import Validation.

Definition CourseLevel_values : list string := ["beginner"; "intermediate"; "advanced"].
Definition CourseStatus_values : list string := ["draft"; "published"; "archived"].

Definition CourseLevel_of_string (s : string) : option Courses.CourseLevel :=
  if String.eqb s "beginner" then Some Courses.BEGINNER
  else if String.eqb s "intermediate" then Some Courses.INTERMEDIATE
  else if String.eqb s "advanced" then Some Courses.ADVANCED
  else None.

Definition CourseStatus_of_string (s : string) : option Courses.CourseStatus :=
  if String.eqb s "draft" then Some Courses.DRAFT
  else if String.eqb s "published" then Some Courses.PUBLISHED
  else if String.eqb s "archived" then Some Courses.ARCHIVED
  else None.

(** [@IsDecimal()] under [@Type(() => Number)], as [price] has them:
    [Number(...)] yields a number whatever it is given, and [IsDecimal]
    accepts decimal strings only, so no value passes. *)
Definition IsDecimal_of_Number (v : JsValue) : bool := false.

(** [@IsArray()]: none of the modelled values is an array. *)
Definition IsArray (v : JsValue) : bool :=
  match v with
  | JString _ | JInteger _ | JNonInteger | JBoolean _ => false
  end.

(** The decorators of [UpdateCourseDto] ([course.dto.ts]); every property
    carries [@IsOptional()], and [duration] has been through
    [@Type(() => Number)]. *)
Definition UpdateCourseDto_schema : Schema :=
  [ ("title", IsString);
    ("description", IsString);
    ("level", IsEnum CourseLevel_values);
    ("duration", IsInt);
    ("price", IsDecimal_of_Number);
    ("status", IsEnum CourseStatus_values);
    ("tags", IsArray) ].

(** [transform: true]: the instance of the DTO class. An object that passed
    the validators above has no [price] and no [tags]. *)
Definition to_UpdateCourseDto (o : gmap string JsValue) : Courses.UpdateCourseDto.t :=
  {| Courses.UpdateCourseDto.title := get_string o "title";
     Courses.UpdateCourseDto.description := get_string o "description";
     Courses.UpdateCourseDto.level := get_enum CourseLevel_of_string o "level";
     Courses.UpdateCourseDto.duration := get_integer o "duration";
     Courses.UpdateCourseDto.price := None;
     Courses.UpdateCourseDto.status := get_enum CourseStatus_of_string o "status";
     Courses.UpdateCourseDto.tags := None |}.

(** [PATCH /courses/:id]: [update(@Param('id', ParseIntPipe) id,
    @Body() updateCourseDto: UpdateCourseDto)]; [i] is the parsed [id]. *)
Definition update (i : Z) (body : gmap string JsValue) (now : Z)
    : Method Courses.CoursesService Courses.CourseResponseDto :=
  if validate UpdateCourseDto_schema body
  then Courses.update i (to_UpdateCourseDto body) now
  else throw BadRequestException.

End CoursesController.

(** ** Sequences of calls on [UsersService] *)

Module UsersRun.
Import Users.

(** One call of a public method, with its arguments and clock readings. *)
Inductive Call : Type :=
| CallFindAll (query : QueryUserDto.t)
| CallFindOne (i : Z)
| CallCreate (createUserDto : CreateUserDto.t) (t_created t_updated : Z)
| CallUpdate (i : Z) (updateUserDto : UpdateUserDto.t) (now : Z)
| CallRemove (i : Z).

(** The fields of the service after the call, whatever it returned. *)
Definition exec (c : Call) (this : UsersService) : UsersService :=
  match c with
  | CallFindAll _ => this
  | CallFindOne i => snd (findOne i this)
  | CallCreate d t1 t2 => snd (create d t1 t2 this)
  | CallUpdate i p now => snd (update i p now this)
  | CallRemove i => snd (remove i this)
  end.

Definition run (cs : list Call) (this : UsersService) : UsersService :=
  fold_left (fun s c => exec c s) cs this.

(** The states the service can be in: those a sequence of calls produces
    from the field initialisers. *)
Definition reachable (this : UsersService) : Prop :=
  exists cs, this = run cs initial.

(** The identifiers stored. *)
Definition ids (this : UsersService) : list Z := map id (users this).

(** The invariant of the store: stored identifiers are pairwise distinct
    and all below the counter. *)
Definition well_formed (this : UsersService) : Prop :=
  NoDup (ids this) /\ Forall (fun i => i < nextId this) (ids this).

End UsersRun.

(** ** The specification's wording of the query engine *)

Module Spec.

(** The contiguous slice [[(page-1)*limit, (page-1)*limit + limit)] of
    the filtered sequence. *)
Definition page_slice {A : Type} (filtered : list A) (page limit : Z) : list A :=
  let start := (page - 1) * limit in
  let end_ := start + limit in
  let first := Z.max 0 start in
  take (Z.to_nat (end_ - first)) (drop (Z.to_nat first) filtered).

(** A user satisfies every supplied filter of the query. *)
Definition user_passes (query : Users.QueryUserDto.t) (u : Users.UserResponseDto) : bool :=
  match Users.QueryUserDto.search query with
  | Some s => Users.search_matches (Js.toLowerCase s) u
  | None => true
  end
  && match Users.QueryUserDto.role query with
     | Some r => Users.role_matches r u
     | None => true
     end
  && match Users.QueryUserDto.status query with
     | Some s => Users.status_matches s u
     | None => true
     end.

(** A course satisfies every supplied filter of the query. *)
Definition course_passes (query : Courses.QueryCourseDto.t)
    (c : Courses.CourseResponseDto) : bool :=
  match Courses.QueryCourseDto.search query with
  | Some s => Courses.search_matches (Js.toLowerCase s) c
  | None => true
  end
  && match Courses.QueryCourseDto.level query with
     | Some l => Courses.level_matches l c
     | None => true
     end
  && match Courses.QueryCourseDto.status query with
     | Some s => Courses.status_matches s c
     | None => true
     end
  && match Courses.QueryCourseDto.instructorId query with
     | Some i => Courses.instructor_matches i c
     | None => true
     end
  && match Courses.QueryCourseDto.minPrice query with
     | Some p => Courses.minPrice_matches p c
     | None => true
     end
  && match Courses.QueryCourseDto.maxPrice query with
     | Some p => Courses.maxPrice_matches p c
     | None => true
     end.

(** [query'] has every filter [query] has, and possibly more. *)
Definition adds_filter {B : Type} (o o' : option B) : Prop :=
  o = None \/ o' = o.

Definition user_query_extends (query query' : Users.QueryUserDto.t) : Prop :=
  adds_filter (Users.QueryUserDto.search query) (Users.QueryUserDto.search query')
  /\ adds_filter (Users.QueryUserDto.role query) (Users.QueryUserDto.role query')
  /\ adds_filter (Users.QueryUserDto.status query) (Users.QueryUserDto.status query').

Definition course_query_extends (query query' : Courses.QueryCourseDto.t) : Prop :=
  adds_filter (Courses.QueryCourseDto.search query) (Courses.QueryCourseDto.search query')
  /\ adds_filter (Courses.QueryCourseDto.level query) (Courses.QueryCourseDto.level query')
  /\ adds_filter (Courses.QueryCourseDto.status query) (Courses.QueryCourseDto.status query')
  /\ adds_filter (Courses.QueryCourseDto.instructorId query)
                 (Courses.QueryCourseDto.instructorId query')
  /\ adds_filter (Courses.QueryCourseDto.minPrice query)
                 (Courses.QueryCourseDto.minPrice query')
  /\ adds_filter (Courses.QueryCourseDto.maxPrice query)
                 (Courses.QueryCourseDto.maxPrice query').

(** The data model's derived full name: [first + " " + last]. *)
Definition full_name_joined (u : Users.UserResponseDto) : Prop :=
  Users.fullName u = Users.firstName u ++ " " ++ Users.lastName u.

(** [String.prototype.trim] on the ASCII white space. *)
Definition is_space (c : ascii) : bool :=
  let n := N_of_ascii c in
  ((n =? 32) || ((9 <=? n) && (n <=? 13)))%N.

Fixpoint trim_start (s : string) : string :=
  match s with
  | String c s' => if is_space c then trim_start s' else s
  | EmptyString => EmptyString
  end.

Fixpoint trim_end (s : string) : string :=
  match s with
  | String c s' =>
      match trim_end s' with
      | EmptyString => if is_space c then EmptyString else String c EmptyString
      | r => String c r
      end
  | EmptyString => EmptyString
  end.

Definition trim (s : string) : string := trim_end (trim_start s).

(** The two readings of "trim-joined first+last". *)
Definition trim_join (first last : string) : string :=
  trim (first ++ " " ++ last).

Definition join_trimmed (first last : string) : string :=
  trim first ++ " " ++ trim last.

End Spec.

(** ** Auxiliary predicates for the filter stage *)

(** Each [if (query.x) filter] step is a filter by an optional predicate. *)
Definition opt_pred {A B : Type} (p : B -> A -> bool) (o : option B) (x : A) : bool :=
  match o with
  | Some b => p b x
  | None => true
  end.

(** The predicate [CoursesService.findAll] filters by: as the supplied
    filters, but an [instructorId] of [0] is skipped like an absent one. *)
Definition course_kept (query : Courses.QueryCourseDto.t)
    (c : Courses.CourseResponseDto) : bool :=
  opt_pred (fun s => Courses.search_matches (Js.toLowerCase s))
           (Courses.QueryCourseDto.search query) c
  && opt_pred Courses.level_matches (Courses.QueryCourseDto.level query) c
  && opt_pred Courses.status_matches (Courses.QueryCourseDto.status query) c
  && match Courses.QueryCourseDto.instructorId query with
     | Some i => if i =? 0 then true else Courses.instructor_matches i c
     | None => true
     end
  && opt_pred Courses.minPrice_matches (Courses.QueryCourseDto.minPrice query) c
  && opt_pred Courses.maxPrice_matches (Courses.QueryCourseDto.maxPrice query) c.

(** ** Sequences of calls on [CoursesService] *)

Module CoursesRun.
Import Courses.

(** One call of a public method, with its arguments and clock readings. *)
Inductive Call : Type :=
| CallFindAll (query : QueryCourseDto.t)
| CallFindOne (i : Z)
| CallCreate (createCourseDto : CreateCourseDto.t) (t_created t_updated : Z)
| CallUpdate (i : Z) (updateCourseDto : UpdateCourseDto.t) (now : Z)
| CallRemove (i : Z).

(** The fields of the service after the call, whatever it returned. *)
Definition exec (c : Call) (this : CoursesService) : CoursesService :=
  match c with
  | CallFindAll _ => this
  | CallFindOne i => snd (findOne i this)
  | CallCreate d t1 t2 => snd (create d t1 t2 this)
  | CallUpdate i p now => snd (update i p now this)
  | CallRemove i => snd (remove i this)
  end.

Definition run (cs : list Call) (this : CoursesService) : CoursesService :=
  fold_left (fun s c => exec c s) cs this.

Definition reachable (this : CoursesService) : Prop :=
  exists cs, this = run cs initial.

Definition ids (this : CoursesService) : list Z := map id (courses this).

Definition well_formed (this : CoursesService) : Prop :=
  NoDup (ids this) /\ Forall (fun i => i < nextId this) (ids this).

End CoursesRun.

(** ** Walking through the pages of a listing *)

(** The page numbers [1 .. n]. *)
Definition pages (n : nat) : list Z := map (fun k => Z.of_nat (S k)) (seq 0 n).

(** The query with its [page] and [limit] set, filters unchanged. *)
Definition users_page (query : Users.QueryUserDto.t) (p l : Z) : Users.QueryUserDto.t :=
  {| Users.QueryUserDto.search := Users.QueryUserDto.search query;
     Users.QueryUserDto.role := Users.QueryUserDto.role query;
     Users.QueryUserDto.status := Users.QueryUserDto.status query;
     Users.QueryUserDto.page := Some p;
     Users.QueryUserDto.limit := Some l |}.

Definition courses_page (query : Courses.QueryCourseDto.t) (p l : Z)
    : Courses.QueryCourseDto.t :=
  {| Courses.QueryCourseDto.search := Courses.QueryCourseDto.search query;
     Courses.QueryCourseDto.level := Courses.QueryCourseDto.level query;
     Courses.QueryCourseDto.status := Courses.QueryCourseDto.status query;
     Courses.QueryCourseDto.instructorId := Courses.QueryCourseDto.instructorId query;
     Courses.QueryCourseDto.minPrice := Courses.QueryCourseDto.minPrice query;
     Courses.QueryCourseDto.maxPrice := Courses.QueryCourseDto.maxPrice query;
     Courses.QueryCourseDto.page := Some p;
     Courses.QueryCourseDto.limit := Some l |}.

(** Text made of ASCII characters only: on it the embedding's [toLowerCase]
    is the code's, which folds every cased letter of Unicode. *)
Fixpoint ascii_only (s : string) : bool :=
  match s with
  | EmptyString => true
  | String c s' => (N_of_ascii c <? 128)%N && ascii_only s'
  end.

Definition user_ascii_only (u : Users.UserResponseDto) : bool :=
  ascii_only (Users.firstName u) && ascii_only (Users.lastName u)
  && ascii_only (Users.email u).

Definition course_ascii_only (c : Courses.CourseResponseDto) : bool :=
  ascii_only (Courses.title c) && ascii_only (Courses.description c).

(** Identifiers in strictly ascending order along the list. *)
Definition increasing (l : list Z) : Prop :=
  forall (a b : nat) (x y : Z),
    (a < b)%nat -> l !! a = Some x -> l !! b = Some y -> x < y.

(** What a caller of [findOne] gets for the result of the lookup. *)
Definition found {A : Type} (r : option (nat * A)) : HttpException + A :=
  match r with
  | Some (_, x) => inr x
  | None => inl NotFoundException
  end.

(** Membership in a list given in extension: each head is compared and
    refuted in turn. *)
Ltac refute_elem_of H :=
  repeat (apply elem_of_cons in H as [H | H]; [try subst; discriminate |]);
  inversion H.

(** * Properties *)

(** ** Array slicing and pagination *)

Section Slice.
Context {A : Type}.
Implicit Types l : list A.

Lemma take_min_length l (n : nat) :
  take (n `min` length l) l = take n l.
Proof.
  destruct (Nat.le_gt_cases (length l) n) as [Hle | Hgt].
  - rewrite Nat.min_r by lia. rewrite !take_ge by lia. reflexivity.
  - rewrite Nat.min_l by lia. reflexivity.
Qed.

(** With both bounds non-negative [slice] is the plain sub-sequence. *)
Lemma slice_nonneg l (start count : Z) :
  0 <= start -> 0 <= count ->
  Js.slice l start (start + count)
  = take (Z.to_nat count) (drop (Z.to_nat start) l).
Proof.
  intros Hs Hc. unfold Js.slice, Js.relative_index.
  destruct (Z.ltb_spec start 0) as [? | _]; [lia |].
  destruct (Z.ltb_spec (start + count) 0) as [? | _]; [lia |].
  set (len := Z.of_nat (length l)).
  destruct (Z.le_gt_cases len start) as [Hout | Hin].
  - rewrite (Z.min_r start len) by lia.
    rewrite !drop_ge by lia. rewrite !take_nil. reflexivity.
  - rewrite (Z.min_l start len) by lia.
    rewrite <- (take_min_length (drop (Z.to_nat start) l) (Z.to_nat count)).
    f_equal. rewrite length_drop. lia.
Qed.

(** [Spec.page_slice] holds the elements whose index lies in the window,
    and nothing else. *)
Lemma page_slice_lookup l (page limit : Z) (i : nat) :
  Spec.page_slice l page limit !! i
  = if Z.of_nat i <? (page - 1) * limit + limit - Z.max 0 ((page - 1) * limit)
    then l !! (Z.to_nat (Z.max 0 ((page - 1) * limit)) + i)%nat
    else None.
Proof.
  unfold Spec.page_slice.
  destruct (Z.ltb_spec (Z.of_nat i)
              ((page - 1) * limit + limit - Z.max 0 ((page - 1) * limit)))
    as [Hin | Hout].
  - rewrite lookup_take_lt by lia. apply lookup_drop.
  - apply lookup_take_ge. lia.
Qed.

Lemma page_slice_nonneg l (page limit : Z) :
  0 <= (page - 1) * limit -> 0 <= limit ->
  Spec.page_slice l page limit
  = take (Z.to_nat limit) (drop (Z.to_nat ((page - 1) * limit)) l).
Proof.
  intros Hs Hl. unfold Spec.page_slice.
  rewrite Z.max_r by lia. f_equal. lia.
Qed.

Lemma page_slice_beyond l (page limit : Z) :
  Z.of_nat (length l) <= (page - 1) * limit ->
  Spec.page_slice l page limit = [].
Proof.
  intros Hout. unfold Spec.page_slice.
  rewrite drop_ge by lia. apply take_nil.
Qed.

(** The envelope for an effective page and limit of at least one. *)
Lemma paginate_spec l (qpage qlimit : option Z) :
  1 <= Js.or_number qpage 1 -> 1 <= Js.or_number qlimit 10 ->
  paginate l qpage qlimit
  = {| data := Spec.page_slice l (Js.or_number qpage 1) (Js.or_number qlimit 10);
       total := Z.of_nat (length l);
       page := Js.or_number qpage 1;
       limit := Js.or_number qlimit 10 |}.
Proof.
  intros Hp Hl. unfold paginate.
  rewrite slice_nonneg by nia. rewrite page_slice_nonneg by nia. reflexivity.
Qed.

End Slice.

(** ** The filter stage of [findAll] *)

Lemma filter_twice {A : Type} (f g : A -> bool) (l : list A) :
  List.filter g (List.filter f l) = List.filter (fun x => f x && g x) l.
Proof.
  induction l as [| x l IH]; simpl; [reflexivity |].
  destruct (f x); simpl; [destruct (g x) |]; rewrite IH; reflexivity.
Qed.

Lemma filter_true {A : Type} (l : list A) :
  List.filter (fun _ => true) l = l.
Proof. induction l as [| x l IH]; simpl; [| rewrite IH]; reflexivity. Qed.

Lemma filter_ext_bool {A : Type} (f g : A -> bool) (l : list A) :
  (forall x, f x = g x) -> List.filter f l = List.filter g l.
Proof.
  intros Hfg. induction l as [| x l IH]; simpl; [reflexivity |].
  rewrite Hfg, IH. reflexivity.
Qed.

Lemma includes_empty (s : string) : Js.includes s "" = true.
Proof. destruct s; reflexivity. Qed.

Lemma truthy_string_false (s : string) :
  Js.truthy_string s = false -> s = "".
Proof.
  unfold Js.truthy_string. intros H.
  apply negb_false_iff in H. apply String.eqb_eq in H. exact H.
Qed.

Lemma filter_opt_pred {A B : Type} (p : B -> A -> bool) (o : option B) (l : list A) :
  match o with
  | Some b => List.filter (p b) l
  | None => l
  end = List.filter (opt_pred p o) l.
Proof. destruct o; simpl; [reflexivity | symmetry; apply filter_true]. Qed.

Lemma users_search_step (o : option string) (l : list Users.UserResponseDto) :
  match o with
  | Some s =>
      if Js.truthy_string s
      then List.filter (Users.search_matches (Js.toLowerCase s)) l
      else l
  | None => l
  end
  = List.filter (opt_pred (fun s => Users.search_matches (Js.toLowerCase s)) o) l.
Proof.
  destruct o as [s |]; simpl; [| symmetry; apply filter_true].
  destruct (Js.truthy_string s) eqn:Hs; [reflexivity |].
  apply truthy_string_false in Hs. subst s.
  rewrite <- (filter_true l) at 1. apply filter_ext_bool.
  intros u. unfold Users.search_matches. simpl.
  rewrite includes_empty. reflexivity.
Qed.

(** [UsersService.findAll] keeps exactly the users that satisfy every
    supplied filter, in the order of [this.users]. *)
Lemma users_apply_filters (this : Users.UsersService) (query : Users.QueryUserDto.t) :
  Users.apply_filters this query
  = List.filter (Spec.user_passes query) (Users.users this).
Proof.
  unfold Users.apply_filters.
  rewrite users_search_step.
  rewrite (filter_opt_pred Users.role_matches).
  rewrite (filter_opt_pred Users.status_matches).
  rewrite !filter_twice. apply filter_ext_bool. intros u.
  unfold Spec.user_passes, opt_pred. rewrite ?andb_assoc. reflexivity.
Qed.

Lemma courses_search_step (o : option string) (l : list Courses.CourseResponseDto) :
  match o with
  | Some s =>
      if Js.truthy_string s
      then List.filter (Courses.search_matches (Js.toLowerCase s)) l
      else l
  | None => l
  end
  = List.filter (opt_pred (fun s => Courses.search_matches (Js.toLowerCase s)) o) l.
Proof.
  destruct o as [s |]; simpl; [| symmetry; apply filter_true].
  destruct (Js.truthy_string s) eqn:Hs; [reflexivity |].
  apply truthy_string_false in Hs. subst s.
  rewrite <- (filter_true l) at 1. apply filter_ext_bool.
  intros c. unfold Courses.search_matches. simpl.
  rewrite includes_empty. reflexivity.
Qed.

Lemma courses_apply_filters_kept (this : Courses.CoursesService)
    (query : Courses.QueryCourseDto.t) :
  Courses.apply_filters this query
  = List.filter (course_kept query) (Courses.courses this).
Proof.
  unfold Courses.apply_filters.
  rewrite courses_search_step.
  rewrite (filter_opt_pred Courses.level_matches).
  rewrite (filter_opt_pred Courses.status_matches).
  rewrite (filter_opt_pred Courses.minPrice_matches).
  rewrite (filter_opt_pred Courses.maxPrice_matches).
  set (l0 := List.filter _ (List.filter _ (List.filter _ (Courses.courses this)))).
  assert (Hi :
    match Courses.QueryCourseDto.instructorId query with
    | Some i => if i =? 0 then l0 else List.filter (Courses.instructor_matches i) l0
    | None => l0
    end
    = List.filter
        (fun c => match Courses.QueryCourseDto.instructorId query with
                  | Some i => if i =? 0 then true else Courses.instructor_matches i c
                  | None => true
                  end) l0).
  { destruct (Courses.QueryCourseDto.instructorId query) as [i |];
      [destruct (i =? 0) |]; try reflexivity; symmetry; apply filter_true. }
  rewrite Hi. subst l0.
  rewrite !filter_twice. apply filter_ext_bool. intros c.
  unfold course_kept. rewrite ?andb_assoc. reflexivity.
Qed.

(** For a query whose [instructorId] is absent or not [0],
    [CoursesService.findAll] keeps exactly the courses that satisfy every
    supplied filter. *)
Lemma courses_apply_filters (this : Courses.CoursesService)
    (query : Courses.QueryCourseDto.t) :
  Courses.QueryCourseDto.instructorId query <> Some 0 ->
  Courses.apply_filters this query
  = List.filter (Spec.course_passes query) (Courses.courses this).
Proof.
  intros Hi. rewrite courses_apply_filters_kept.
  apply filter_ext_bool. intros c.
  unfold course_kept, Spec.course_passes, opt_pred.
  destruct (Courses.QueryCourseDto.instructorId query) as [i |]; [| reflexivity].
  destruct (Z.eqb_spec i 0) as [-> | _]; [congruence | reflexivity].
Qed.

(** ** C1: the list envelope *)

(** C1 (as stated, for every query) fails on negative pagination values:
    over the three seeded users, [page = -1, limit = 1] returns the second
    user although the window [[-2, -1)] holds no index, and
    [page = 1, limit = -1] returns the first two users although the window
    [[0, -1)] is empty. *)
Lemma findAll_negative_pagination_counterexample :
  (let query := Users.QueryUserDto.mk None None None (Some (-1)) (Some 1) in
   let r := Users.findAll Users.initial query in
   map Users.id (data r) = [2]
   /\ Spec.page_slice (List.filter (Spec.user_passes query) (Users.users Users.initial))
                      (page r) (limit r) = []
   /\ page r = -1 /\ limit r = 1)
  /\
  (let query := Users.QueryUserDto.mk None None None (Some 1) (Some (-1)) in
   let r := Users.findAll Users.initial query in
   map Users.id (data r) = [1; 2]
   /\ Spec.page_slice (List.filter (Spec.user_passes query) (Users.users Users.initial))
                      (page r) (limit r) = []
   /\ page r = 1 /\ limit r = -1).
Proof. vm_compute. repeat split; reflexivity. Qed.

(** C1 (amended): for every store and every query whose effective page and
    limit ([query.page || 1] and [query.limit || 10]) are at least 1,
    [findAll] returns the envelope whose [total] is the number of entities
    passing all supplied filters, whose [data] is the window
    [[(page-1)*limit, (page-1)*limit + limit)] of the filtered sequence in
    store order, empty when the page lies beyond the filtered sequence; for
    courses the query's [instructorId] is absent or not [0]. Over three
    stored users, [page = 2, limit = 1] returns the second user and
    [total = 3]. *)
Theorem findAll_envelope :
  (forall (this : Users.UsersService) (query : Users.QueryUserDto.t),
     1 <= Js.or_number (Users.QueryUserDto.page query) 1 ->
     1 <= Js.or_number (Users.QueryUserDto.limit query) 10 ->
     Users.findAll this query
     = {| data := Spec.page_slice
                    (List.filter (Spec.user_passes query) (Users.users this))
                    (Js.or_number (Users.QueryUserDto.page query) 1)
                    (Js.or_number (Users.QueryUserDto.limit query) 10);
          total := Z.of_nat (length (List.filter (Spec.user_passes query)
                                                 (Users.users this)));
          page := Js.or_number (Users.QueryUserDto.page query) 1;
          limit := Js.or_number (Users.QueryUserDto.limit query) 10 |}
     /\ (total (Users.findAll this query)
         <= (page (Users.findAll this query) - 1) * limit (Users.findAll this query) ->
         data (Users.findAll this query) = []))
  /\
  (forall (this : Courses.CoursesService) (query : Courses.QueryCourseDto.t),
     Courses.QueryCourseDto.instructorId query <> Some 0 ->
     1 <= Js.or_number (Courses.QueryCourseDto.page query) 1 ->
     1 <= Js.or_number (Courses.QueryCourseDto.limit query) 10 ->
     Courses.findAll this query
     = {| data := Spec.page_slice
                    (List.filter (Spec.course_passes query) (Courses.courses this))
                    (Js.or_number (Courses.QueryCourseDto.page query) 1)
                    (Js.or_number (Courses.QueryCourseDto.limit query) 10);
          total := Z.of_nat (length (List.filter (Spec.course_passes query)
                                                 (Courses.courses this)));
          page := Js.or_number (Courses.QueryCourseDto.page query) 1;
          limit := Js.or_number (Courses.QueryCourseDto.limit query) 10 |}
     /\ (total (Courses.findAll this query)
         <= (page (Courses.findAll this query) - 1) * limit (Courses.findAll this query) ->
         data (Courses.findAll this query) = []))
  /\
  (forall (u1 u2 u3 : Users.UserResponseDto) (n : Z),
     Users.findAll {| Users.users := [u1; u2; u3]; Users.nextId := n |}
                   (Users.QueryUserDto.mk None None None (Some 2) (Some 1))
     = {| data := [u2]; total := 3; page := 2; limit := 1 |}).
Proof.
  split; [| split].
  - intros this query Hp Hl. unfold Users.findAll.
    rewrite users_apply_filters, paginate_spec by assumption.
    split; [reflexivity |]. simpl. apply page_slice_beyond.
  - intros this query Hi Hp Hl. unfold Courses.findAll.
    rewrite courses_apply_filters, paginate_spec by assumption.
    split; [reflexivity |]. simpl. apply page_slice_beyond.
  - intros u1 u2 u3 n. reflexivity.
Qed.

Lemma findAll_envelope_witness :
  Users.findAll Users.initial
                (Users.QueryUserDto.mk (Some "LMS") None (Some Users.ACTIVE) (Some 2) None)
  = {| data := []; total := 3; page := 2; limit := 10 |}
  /\ total (Courses.findAll Courses.initial
              (Courses.QueryCourseDto.mk None (Some Courses.BEGINNER) None (Some 2)
                                         (Some (50 # 1)) None None (Some 1))) = 2.
Proof.
  split.
  - apply (proj1 findAll_envelope Users.initial
             (Users.QueryUserDto.mk (Some "LMS") None (Some Users.ACTIVE) (Some 2) None));
      simpl; lia.
  - rewrite (proj1 (proj1 (proj2 findAll_envelope) Courses.initial
               (Courses.QueryCourseDto.mk None (Some Courses.BEGINNER) None (Some 2)
                                          (Some (50 # 1)) None None (Some 1))
               ltac:(discriminate) ltac:(simpl; lia) ltac:(simpl; lia))).
    reflexivity.
Defined.

(** ** Looking a user up by identifier *)


Lemma users_find_absent (i : Z) (l : list Users.UserResponseDto) :
  (forall u, u ∈ l -> Users.id u <> i) -> Users.find_by_id i l = None.
Proof.
  intros Habs. unfold Users.find_by_id. apply list_find_None.
  apply Forall_forall. exact Habs.
Qed.

(** ** The whitelist of the validation pipe *)


(** ** C2: what [update] changes and what it keeps *)



Lemma courses_find_absent (i : Z) (l : list Courses.CourseResponseDto) :
  (forall c, c ∈ l -> Courses.id c <> i) -> Courses.find_by_id i l = None.
Proof.
  intros Habs. unfold Courses.find_by_id. apply list_find_None.
  apply Forall_forall. exact Habs.
Qed.

(** A body that passes the validators of [UpdateCourseDto] has neither a
    [price] nor [tags]: what [CoursesController.to_UpdateCourseDto] leaves
    out is not there. *)
Lemma validated_course_body (body : gmap string Validation.JsValue) :
  Validation.validate CoursesController.UpdateCourseDto_schema body = true ->
  body !! "price" = None /\ body !! "tags" = None.
Proof.
  unfold Validation.validate, Validation.valid_properties,
    CoursesController.UpdateCourseDto_schema.
  intros Hv. apply andb_true_iff in Hv. destruct Hv as [_ Hv].
  cbn [forallb fst snd] in Hv. rewrite !andb_true_iff in Hv.
  destruct Hv as (_ & _ & _ & _ & Hp & _ & Ht & _).
  split.
  - destruct (body !! "price"); [discriminate | reflexivity].
  - destruct (body !! "tags") as [[? | ? | | ?] |]; [discriminate .. | reflexivity].
Qed.



(** ** C3: [create] and the uniqueness of e-mail addresses *)

Lemma findByEmail_Some (this : Users.UsersService) (e : string) :
  (exists u, u ∈ Users.users this /\ Users.email u = e) ->
  exists u, Users.findByEmail this e = Some u.
Proof.
  intros (u & Hin & He). unfold Users.findByEmail.
  destruct (List.find _ (Users.users this)) as [v |] eqn:Hf; [eauto |].
  apply list_elem_of_In in Hin.
  pose proof (find_none _ _ Hf u Hin) as Hne. simpl in Hne.
  apply String.eqb_neq in Hne. contradiction.
Qed.

Lemma findByEmail_None (this : Users.UsersService) (e : string) :
  (forall u, u ∈ Users.users this -> Users.email u <> e) ->
  Users.findByEmail this e = None.
Proof.
  intros Hfresh. unfold Users.findByEmail.
  destruct (List.find _ (Users.users this)) as [v |] eqn:Hf; [| reflexivity].
  apply find_some in Hf. destruct Hf as [Hin Heq].
  apply String.eqb_eq in Heq. apply list_elem_of_In in Hin.
  exfalso. exact (Hfresh v Hin Heq).
Qed.

(** C3: whatever the state of the store, [create] with the e-mail address
    of a stored user throws [ConflictException] and leaves the users and
    the id counter as they were; with an address no stored user has it
    succeeds, and from then on every [create] with that address, whatever
    its other fields, throws [ConflictException] and changes nothing: of
    two calls with one address exactly the first succeeds, whichever of the
    two drafts comes first. *)
Theorem create_rejects_duplicate_email :
  forall (this : Users.UsersService) (d : Users.CreateUserDto.t) (t1 t2 : Z),
    ((exists u, u ∈ Users.users this /\ Users.email u = Users.CreateUserDto.email d) ->
     Users.create d t1 t2 this = (inl ConflictException, this))
    /\
    ((forall u, u ∈ Users.users this -> Users.email u <> Users.CreateUserDto.email d) ->
     exists created,
       Users.create d t1 t2 this
       = (inr created,
          {| Users.users := Users.users this ++ [created];
             Users.nextId := Users.nextId this + 1 |})
       /\ Users.email created = Users.CreateUserDto.email d
       /\ Users.id created = Users.nextId this
       /\ forall (d' : Users.CreateUserDto.t) (t3 t4 : Z),
            Users.CreateUserDto.email d' = Users.CreateUserDto.email d ->
            Users.create d' t3 t4
              {| Users.users := Users.users this ++ [created];
                 Users.nextId := Users.nextId this + 1 |}
            = (inl ConflictException,
               {| Users.users := Users.users this ++ [created];
                  Users.nextId := Users.nextId this + 1 |})).
Proof.
  intros this d t1 t2. split.
  - intros Hdup. destruct (findByEmail_Some this _ Hdup) as [u Hu].
    unfold Users.create, bind, get, throw. rewrite Hu. reflexivity.
  - intros Hfresh. eexists. split.
    { unfold Users.create, bind, get, put, ret.
      rewrite (findByEmail_None this _ Hfresh). reflexivity. }
    split; [reflexivity |]. split; [reflexivity |].
    intros d' t3 t4 Hsame.
    match goal with
    | |- Users.create _ _ _ ?s = _ =>
        destruct (findByEmail_Some s (Users.CreateUserDto.email d')) as [u Hu]
    end.
    { eexists. split; [apply elem_of_app; right; apply list_elem_of_singleton; reflexivity |].
      simpl. symmetry. exact Hsame. }
    unfold Users.create, bind, get, throw. rewrite Hu. reflexivity.
Qed.

Lemma create_rejects_duplicate_email_witness :
  Users.create (Users.CreateUserDto.mk "admin@lms.com" "SecurePass123!" "Ann" "Other"
                                       Users.STUDENT None None) 7 7 Users.initial
  = (inl ConflictException, Users.initial)
  /\ exists created,
       Users.create (Users.CreateUserDto.mk "ann@lms.com" "SecurePass123!" "Ann" "Other"
                                            Users.STUDENT None None) 7 7 Users.initial
       = (inr created,
          {| Users.users := Users.users Users.initial ++ [created]; Users.nextId := 5 |})
       /\ Users.create (Users.CreateUserDto.mk "ann@lms.com" "AnotherPass1!" "Anna" "Else"
                                               Users.ADMIN None None) 9 9
            {| Users.users := Users.users Users.initial ++ [created]; Users.nextId := 5 |}
          = (inl ConflictException,
             {| Users.users := Users.users Users.initial ++ [created]; Users.nextId := 5 |}).
Proof.
  split.
  - apply (proj1 (create_rejects_duplicate_email Users.initial _ 7 7)).
    eexists. split; [apply list_elem_of_lookup; exists 0%nat; reflexivity | reflexivity].
  - destruct (proj2 (create_rejects_duplicate_email Users.initial
                       (Users.CreateUserDto.mk "ann@lms.com" "SecurePass123!" "Ann" "Other"
                                               Users.STUDENT None None) 7 7))
      as (created & Hc & _ & _ & Hnext).
    { intros u Hu. simpl in Hu. refute_elem_of Hu. }
    exists created. split; [exact Hc |].
    apply (Hnext (Users.CreateUserDto.mk "ann@lms.com" "AnotherPass1!" "Anna" "Else"
                                         Users.ADMIN None None) 9 9).
    reflexivity.
Defined.

(** ** C4: non-positive pagination values *)

(** C4 (as stated) fails: [GET /users?page=-1&limit=1] on the seeded store
    passes validation and is answered with the second user, and
    [GET /users?page=0&limit=0] is answered with page 1 and limit 10;
    neither throws [BadRequestException]. *)
Lemma nonpositive_pagination_counterexample :
  (exists r,
     UsersController.findAll
       {[ "page" := Validation.JInteger (-1); "limit" := Validation.JInteger 1 ]}
       Users.initial
     = (inr r, Users.initial)
     /\ map Users.id (data r) = [2] /\ page r = -1 /\ limit r = 1)
  /\
  (exists r,
     UsersController.findAll
       {[ "page" := Validation.JInteger 0; "limit" := Validation.JInteger 0 ]}
       Users.initial
     = (inr r, Users.initial)
     /\ map Users.id (data r) = [1; 2; 3] /\ page r = 1 /\ limit r = 10).
Proof.
  split; eexists; (split; [vm_compute; reflexivity |]);
    vm_compute; repeat split; reflexivity.
Qed.

Lemma whitelisted_insert (schema : Validation.Schema)
    (o : gmap string Validation.JsValue) (k : string) (v : Validation.JsValue) :
  k ∈ schema.*1 ->
  Validation.whitelisted schema o = true ->
  Validation.whitelisted schema (<[k := v]> o) = true.
Proof.
  unfold Validation.whitelisted. intros Hk Ho.
  apply bool_decide_eq_true in Ho. apply bool_decide_eq_true.
  apply map_Forall_insert_2; assumption.
Qed.

(** C4 (amended): a listing query is not rejected for a zero or negative
    [page] or [limit]: [QueryUserDto] constrains both by [@IsInt()] only, so
    a valid query stays valid when they are set to any integers, and
    [findAll] answers it: a [page] of 0 is replaced by 1 and a [limit] of 0
    by 10, and negative values go unchanged into the bounds handed to
    [slice]. *)
Theorem nonpositive_pagination_accepted :
  forall (this : Users.UsersService) (query : gmap string Validation.JsValue) (p l : Z),
    Validation.validate UsersController.QueryUserDto_schema query = true ->
    Validation.validate UsersController.QueryUserDto_schema
      (<["page" := Validation.JInteger p]> (<["limit" := Validation.JInteger l]> query))
    = true
    /\ exists r,
         UsersController.findAll
           (<["page" := Validation.JInteger p]> (<["limit" := Validation.JInteger l]> query))
           this
         = (inr r, this)
         /\ page r = (if p =? 0 then 1 else p)
         /\ limit r = (if l =? 0 then 10 else l)
         /\ data r
            = Js.slice
                (Users.apply_filters this
                   (UsersController.to_QueryUserDto
                      (<["page" := Validation.JInteger p]>
                         (<["limit" := Validation.JInteger l]> query))))
                ((page r - 1) * limit r)
                ((page r - 1) * limit r + limit r).
Proof.
  intros this query p l Hv.
  assert (Hv' : Validation.validate UsersController.QueryUserDto_schema
                  (<["page" := Validation.JInteger p]>
                     (<["limit" := Validation.JInteger l]> query)) = true).
  { unfold Validation.validate in *. apply andb_true_iff in Hv.
    destruct Hv as [Hw Hp]. apply andb_true_iff. split.
    - apply whitelisted_insert; [simpl; set_solver |].
      apply whitelisted_insert; [simpl; set_solver | exact Hw].
    - unfold Validation.valid_properties, UsersController.QueryUserDto_schema in *.
      cbn [forallb fst snd] in *.
      rewrite !andb_true_iff in Hp. destruct Hp as (Hs & Hr & Hst & _).
      rewrite lookup_insert_eq.
      rewrite !(lookup_insert_ne _ "page") by discriminate.
      rewrite lookup_insert_eq.
      rewrite !(lookup_insert_ne _ "limit") by discriminate.
      rewrite Hs, Hr, Hst. reflexivity. }
  split; [exact Hv' |].
  unfold UsersController.findAll. rewrite Hv'.
  eexists. split; [reflexivity |].
  unfold Users.findAll, paginate. simpl.
  unfold Validation.get_integer.
  rewrite (lookup_insert_ne _ "page" "limit") by discriminate.
  rewrite !lookup_insert_eq. simpl.
  repeat split; reflexivity.
Qed.

Lemma nonpositive_pagination_accepted_witness :
  exists r,
    UsersController.findAll
      (<["page" := Validation.JInteger (-3)]>
         (<["limit" := Validation.JInteger 0]>
            {[ "role" := Validation.JString "admin" ]}))
      Users.initial
    = (inr r, Users.initial)
    /\ page r = -3 /\ limit r = 10.
Proof.
  assert (Hv : Validation.validate UsersController.QueryUserDto_schema
                 {[ "role" := Validation.JString "admin" ]} = true)
    by (vm_compute; reflexivity).
  destruct (proj2 (nonpositive_pagination_accepted Users.initial _ (-3) 0 Hv))
    as (r & Hr & Hp & Hl & _).
  exists r. split; [exact Hr |]. split; assumption.
Defined.

(** ** C5: [login] *)

Lemma login_find_match (loginDto : Auth.LoginDto.t) (u : Auth.DemoUser.t) :
  List.find (Auth.credentials_match loginDto) Auth.demoUsers = Some u ->
  u ∈ Auth.demoUsers
  /\ Auth.DemoUser.email u = Auth.LoginDto.email loginDto
  /\ Auth.DemoUser.password u = Auth.LoginDto.password loginDto.
Proof.
  intros Hf. apply find_some in Hf. destruct Hf as [Hin Hm].
  unfold Auth.credentials_match in Hm. apply andb_true_iff in Hm.
  destruct Hm as [He Hp]. apply String.eqb_eq in He, Hp.
  split; [apply list_elem_of_In; exact Hin | split; assumption].
Qed.

(** C5: [login] succeeds exactly when an entry of the credential table has
    both the e-mail address and the password of the request. On success the
    access token is the signature of the claims [sub] = the entry's id,
    [email] and [role], the token type is [Bearer], [expires_in] is 604800
    (7 days), and the [user] snapshot holds the entry's id, e-mail address,
    name and role (it has no password property). Otherwise it throws
    [UnauthorizedException] and returns no response. For
    [user@example.com] / [password123] the claims have role [student]; with
    the password [wrong] the call throws. *)
Theorem login_contract :
  forall (sign : Auth.Payload.t -> string) (loginDto : Auth.LoginDto.t),
    ((exists r, Auth.login sign loginDto = inr r)
     <-> (exists u, u ∈ Auth.demoUsers
                    /\ Auth.DemoUser.email u = Auth.LoginDto.email loginDto
                    /\ Auth.DemoUser.password u = Auth.LoginDto.password loginDto))
    /\ (forall r, Auth.login sign loginDto = inr r ->
          exists u, u ∈ Auth.demoUsers
            /\ Auth.DemoUser.email u = Auth.LoginDto.email loginDto
            /\ Auth.DemoUser.password u = Auth.LoginDto.password loginDto
            /\ Auth.access_token r
               = sign {| Auth.Payload.email := Auth.DemoUser.email u;
                         Auth.Payload.sub := Auth.DemoUser.id u;
                         Auth.Payload.role := Auth.DemoUser.role u |}
            /\ Auth.token_type r = "Bearer"
            /\ Auth.expires_in r = 604800
            /\ Auth.expires_in r = 7 * 24 * 60 * 60
            /\ Auth.user r
               = {| Auth.PublicUser.id := Auth.DemoUser.id u;
                    Auth.PublicUser.email := Auth.DemoUser.email u;
                    Auth.PublicUser.name := Auth.DemoUser.name u;
                    Auth.PublicUser.role := Auth.DemoUser.role u |})
    /\ ((forall r, Auth.login sign loginDto <> inr r) ->
        Auth.login sign loginDto = inl UnauthorizedException)
    /\ Auth.login sign (Auth.LoginDto.mk "user@example.com" "password123")
       = inr {| Auth.access_token :=
                  sign {| Auth.Payload.email := "user@example.com";
                          Auth.Payload.sub := 1;
                          Auth.Payload.role := "student" |};
                Auth.token_type := "Bearer";
                Auth.expires_in := 604800;
                Auth.user := {| Auth.PublicUser.id := 1;
                                Auth.PublicUser.email := "user@example.com";
                                Auth.PublicUser.name := "John Doe";
                                Auth.PublicUser.role := "student" |} |}
    /\ Auth.login sign (Auth.LoginDto.mk "user@example.com" "wrong")
       = inl UnauthorizedException.
Proof.
  intros sign loginDto.
  assert (Hsucc : forall r, Auth.login sign loginDto = inr r ->
            exists u, List.find (Auth.credentials_match loginDto) Auth.demoUsers = Some u
                      /\ r = {| Auth.access_token :=
                                  sign {| Auth.Payload.email := Auth.DemoUser.email u;
                                          Auth.Payload.sub := Auth.DemoUser.id u;
                                          Auth.Payload.role := Auth.DemoUser.role u |};
                                Auth.token_type := "Bearer";
                                Auth.expires_in := 604800;
                                Auth.user :=
                                  {| Auth.PublicUser.id := Auth.DemoUser.id u;
                                     Auth.PublicUser.email := Auth.DemoUser.email u;
                                     Auth.PublicUser.name := Auth.DemoUser.name u;
                                     Auth.PublicUser.role := Auth.DemoUser.role u |} |}).
  { intros r. unfold Auth.login.
    destruct (List.find _ Auth.demoUsers) as [u |]; [| discriminate].
    intros [= <-]. eauto. }
  split; [split |].
  - intros [r Hr]. destruct (Hsucc r Hr) as (u & Hf & _).
    exists u. apply login_find_match. exact Hf.
  - intros (u & Hin & He & Hp). unfold Auth.login.
    destruct (List.find _ Auth.demoUsers) as [v |] eqn:Hf; [eauto |].
    apply list_elem_of_In in Hin.
    pose proof (find_none _ _ Hf u Hin) as Hno.
    unfold Auth.credentials_match in Hno.
    rewrite He, Hp, !String.eqb_refl in Hno. discriminate.
  - split; [| split; [| split; reflexivity]].
    + intros r Hr. destruct (Hsucc r Hr) as (u & Hf & ->).
      exists u. destruct (login_find_match _ _ Hf) as (Hin & He & Hp).
      repeat split; assumption.
    + intros Hno. unfold Auth.login in *.
      destruct (List.find _ Auth.demoUsers) as [u |]; [| reflexivity].
      exfalso. eapply Hno. reflexivity.
Qed.

Lemma login_contract_witness :
  exists r,
    Auth.login Auth.Payload.email (Auth.LoginDto.mk "admin@lms.com" "admin123") = inr r
    /\ Auth.token_type r = "Bearer"
    /\ Auth.expires_in r = 604800.
Proof.
  destruct (proj2 (proj1 (login_contract Auth.Payload.email
                            (Auth.LoginDto.mk "admin@lms.com" "admin123"))))
    as [r Hr].
  { eexists. split; [apply list_elem_of_lookup; exists 1%nat; reflexivity |].
    split; reflexivity. }
  exists r. split; [exact Hr |].
  destruct (proj1 (proj2 (login_contract Auth.Payload.email _)) r Hr)
    as (u & _ & _ & _ & _ & Ht & He & _).
  split; assumption.
Defined.

(** ** C6: missing identifiers and the finality of deletion *)

Section UsersInvariant.
Import Users UsersRun.

Lemma findOne_absent (this : UsersService) (i : Z) :
  (forall u, u ∈ users this -> id u <> i) ->
  findOne i this = (inl NotFoundException, this).
Proof.
  intros Habs. unfold findOne, bind, get, throw.
  rewrite (users_find_absent i _ Habs). reflexivity.
Qed.

Lemma update_absent (this : UsersService) (i : Z) (p : UpdateUserDto.t) (now : Z) :
  (forall u, u ∈ users this -> id u <> i) ->
  update i p now this = (inl NotFoundException, this).
Proof.
  intros Habs. unfold update, bind, get, throw.
  rewrite (users_find_absent i _ Habs). reflexivity.
Qed.

Lemma remove_absent (this : UsersService) (i : Z) :
  (forall u, u ∈ users this -> id u <> i) ->
  remove i this = (inl NotFoundException, this).
Proof.
  intros Habs. unfold remove, bind, get, throw.
  rewrite (users_find_absent i _ Habs). reflexivity.
Qed.

Lemma absent_iff_not_in_ids (this : UsersService) (i : Z) :
  i ∉ ids this <-> (forall u, u ∈ users this -> id u <> i).
Proof.
  unfold ids. split.
  - intros Hnot u Hu Hid. apply Hnot. apply list_elem_of_fmap. eauto.
  - intros Habs Hin. apply list_elem_of_fmap in Hin.
    destruct Hin as (u & Hid & Hu). exact (Habs u Hu (eq_sym Hid)).
Qed.

(** What each method does to the stored identifiers and to the counter. *)
Lemma create_ids (d : CreateUserDto.t) (t1 t2 : Z) (this : UsersService) :
  (ids (snd (create d t1 t2 this)) = ids this
   /\ nextId (snd (create d t1 t2 this)) = nextId this
   /\ exists e, fst (create d t1 t2 this) = inl e)
  \/ (ids (snd (create d t1 t2 this)) = (ids this ++ [nextId this])%list
      /\ nextId (snd (create d t1 t2 this)) = nextId this + 1
      /\ exists u, fst (create d t1 t2 this) = inr u /\ id u = nextId this).
Proof.
  unfold create, bind, get, put, ret, throw.
  destruct (findByEmail this _); simpl.
  - left. eauto.
  - right. unfold ids. simpl. rewrite map_app. simpl. eauto.
Qed.

Lemma update_ids (i : Z) (p : UpdateUserDto.t) (now : Z) (this : UsersService) :
  ids (snd (update i p now this)) = ids this
  /\ nextId (snd (update i p now this)) = nextId this.
Proof.
  unfold update, bind, get, put, ret, throw, find_by_id.
  destruct (list_find _ (users this)) as [[idx existing] |] eqn:Hf; simpl;
    [| split; reflexivity].
  apply list_find_Some in Hf. destruct Hf as (Hl & _ & _).
  split; [| reflexivity]. unfold ids. simpl.
  change (map id ?l) with (id <$> l).
  rewrite list_fmap_insert. simpl. apply list_insert_id.
  rewrite list_lookup_fmap, Hl. reflexivity.
Qed.

Lemma remove_ids (i : Z) (this : UsersService) :
  nextId (snd (remove i this)) = nextId this
  /\ ((ids (snd (remove i this)) = ids this
       /\ fst (remove i this) = inl NotFoundException)
      \/ exists idx, ids this !! idx = Some i
                     /\ ids (snd (remove i this)) = delete idx (ids this)
                     /\ fst (remove i this) = inr tt).
Proof.
  unfold remove, bind, get, put, throw, find_by_id.
  destruct (list_find _ (users this)) as [[idx existing] |] eqn:Hf; simpl;
    [| split; [reflexivity | left; split; reflexivity]].
  apply list_find_Some in Hf. destruct Hf as (Hl & Hid & _).
  split; [reflexivity |]. right. exists idx. unfold ids. simpl.
  change (map id ?l) with (id <$> l).
  rewrite list_fmap_delete, list_lookup_fmap, Hl. simpl. rewrite Hid. auto.
Qed.

Lemma findOne_state (i : Z) (this : UsersService) : snd (findOne i this) = this.
Proof.
  unfold findOne, bind, get, ret, throw.
  destruct (find_by_id i (users this)) as [[? ?] |]; reflexivity.
Qed.

Lemma NoDup_delete_index {X : Type} (l : list X) (idx : nat) :
  NoDup l -> NoDup (delete idx l).
Proof.
  intros Hnd. eapply sublist_NoDup; [exact Hnd | apply sublist_delete].
Qed.

Lemma NoDup_delete_gone {X : Type} (l : list X) (idx : nat) (x : X) :
  NoDup l -> l !! idx = Some x -> x ∉ delete idx l.
Proof.
  intros Hnd Hl Hin. apply list_elem_of_lookup in Hin. destruct Hin as [j Hj].
  destruct (Nat.lt_ge_cases j idx) as [Hlt | Hge].
  - rewrite list_lookup_delete_lt in Hj by exact Hlt.
    pose proof (NoDup_lookup _ _ _ _ Hnd Hj Hl). lia.
  - rewrite list_lookup_delete_ge in Hj by exact Hge.
    pose proof (NoDup_lookup _ _ _ _ Hnd Hj Hl). lia.
Qed.

Lemma Forall_delete_index {X : Type} (P : X -> Prop) (l : list X) (idx : nat) :
  Forall P l -> Forall P (delete idx l).
Proof.
  rewrite !Forall_forall. intros Hall x Hx.
  apply Hall. eapply list_elem_of_delete_inv. exact Hx.
Qed.

Lemma well_formed_initial : well_formed initial.
Proof.
  split.
  - unfold ids. simpl.
    repeat constructor; intros H; refute_elem_of H.
  - unfold ids. simpl. repeat constructor; lia.
Qed.

Lemma exec_nextId_mono (c : Call) (this : UsersService) :
  nextId this <= nextId (exec c this).
Proof.
  destruct c as [q | i | d t1 t2 | i p now | i]; simpl.
  - lia.
  - rewrite findOne_state. lia.
  - destruct (create_ids d t1 t2 this) as [(_ & -> & _) | (_ & -> & _)]; lia.
  - destruct (update_ids i p now this) as [_ ->]. lia.
  - destruct (remove_ids i this) as [-> _]. lia.
Qed.

Lemma run_nextId_mono (cs : list Call) (this : UsersService) :
  nextId this <= nextId (run cs this).
Proof.
  revert this. induction cs as [| c cs IH]; intros this; simpl; [lia |].
  pose proof (exec_nextId_mono c this). pose proof (IH (exec c this)).
  unfold run in *. lia.
Qed.

Lemma exec_well_formed (c : Call) (this : UsersService) :
  well_formed this -> well_formed (exec c this).
Proof.
  intros [Hnd Hlt]. unfold well_formed.
  destruct c as [q | i | d t1 t2 | i p now | i]; simpl.
  - auto.
  - rewrite findOne_state. auto.
  - destruct (create_ids d t1 t2 this) as [(-> & -> & _) | (-> & -> & _)]; [auto |].
    split.
    + apply NoDup_app. split; [exact Hnd |]. split; [| apply NoDup_singleton].
      intros x Hx Hx'. apply list_elem_of_singleton in Hx'. subst x.
      rewrite Forall_forall in Hlt. specialize (Hlt _ Hx). lia.
    + apply Forall_app. split.
      * eapply Forall_impl; [exact Hlt |]. simpl. intros; lia.
      * repeat constructor. lia.
  - destruct (update_ids i p now this) as [-> ->]. auto.
  - destruct (remove_ids i this) as [-> [[-> _] | (idx & _ & -> & _)]]; [auto |].
    split; [apply NoDup_delete_index | apply Forall_delete_index]; assumption.
Qed.

Lemma run_well_formed (cs : list Call) (this : UsersService) :
  well_formed this -> well_formed (run cs this).
Proof.
  revert this. induction cs as [| c cs IH]; intros this Hwf; simpl; [exact Hwf |].
  apply IH. apply exec_well_formed. exact Hwf.
Qed.

Lemma reachable_well_formed (this : UsersService) :
  reachable this -> well_formed this.
Proof. intros [cs ->]. apply run_well_formed. exact well_formed_initial. Qed.

(** An identifier below the counter that is not stored stays so. *)
Lemma exec_retired (c : Call) (this : UsersService) (i : Z) :
  i ∉ ids this -> i < nextId this ->
  i ∉ ids (exec c this).
Proof.
  intros Hnot Hlt.
  destruct c as [q | j | d t1 t2 | j p now | j]; simpl.
  - exact Hnot.
  - rewrite findOne_state. exact Hnot.
  - destruct (create_ids d t1 t2 this) as [(-> & _) | (-> & _)]; [exact Hnot |].
    intros Hin. apply elem_of_app in Hin. destruct Hin as [Hin | Hin]; [auto |].
    apply list_elem_of_singleton in Hin. lia.
  - destruct (update_ids j p now this) as [-> _]. exact Hnot.
  - destruct (remove_ids j this) as [_ [[-> _] | (idx & _ & -> & _)]]; [exact Hnot |].
    intros Hin. apply Hnot. eapply list_elem_of_delete_inv. exact Hin.
Qed.

Lemma run_retired (cs : list Call) (this : UsersService) (i : Z) :
  i ∉ ids this -> i < nextId this ->
  i ∉ ids (run cs this).
Proof.
  revert this. induction cs as [| c cs IH]; intros this Hnot Hlt; simpl; [exact Hnot |].
  apply IH; [apply exec_retired; assumption |].
  pose proof (exec_nextId_mono c this). lia.
Qed.

(** A successful [remove] retires the identifier. *)
Lemma remove_retires (this this' : UsersService) (i : Z) :
  well_formed this ->
  remove i this = (inr tt, this') ->
  (i ∉ ids this') /\ i < nextId this' /\ nextId this' = nextId this.
Proof.
  intros [Hnd Hlt] Hrm.
  destruct (remove_ids i this) as [Hn [[_ Hf] | (idx & Hl & Hids & _)]];
    rewrite Hrm in *; simpl in *; [discriminate |].
  split; [| split; [| exact Hn]].
  - rewrite Hids. apply NoDup_delete_gone; assumption.
  - rewrite Hn. rewrite Forall_forall in Hlt. apply Hlt.
    eapply list_elem_of_lookup_2. exact Hl.
Qed.

End UsersInvariant.


(** C6: on an identifier no stored user (or course) has, [findOne] (read),
    [update] and [remove] (delete) each throw [NotFoundException] and leave
    the store as it was. No call ever lowers the id counter. In every state
    the service can reach, after a successful [remove] of an identifier,
    whatever calls follow, [findOne] on it throws [NotFoundException] and
    no [create] returns a user with that identifier. *)
Theorem missing_id_and_deletion_finality :
  (forall (this : Users.UsersService) (i : Z),
     (forall u, u ∈ Users.users this -> Users.id u <> i) ->
     Users.findOne i this = (inl NotFoundException, this)
     /\ (forall (p : Users.UpdateUserDto.t) (now : Z),
           Users.update i p now this = (inl NotFoundException, this))
     /\ Users.remove i this = (inl NotFoundException, this))
  /\
  (forall (c : UsersRun.Call) (this : Users.UsersService),
     Users.nextId this <= Users.nextId (UsersRun.exec c this))
  /\
  (forall (this this' : Users.UsersService) (i : Z),
     UsersRun.reachable this ->
     Users.remove i this = (inr tt, this') ->
     forall cs : list UsersRun.Call,
       Users.findOne i (UsersRun.run cs this')
       = (inl NotFoundException, UsersRun.run cs this')
       /\ Users.nextId this <= Users.nextId (UsersRun.run cs this')
       /\ (forall (d : Users.CreateUserDto.t) (t1 t2 : Z)
                  (created : Users.UserResponseDto) (s : Users.UsersService),
             Users.create d t1 t2 (UsersRun.run cs this') = (inr created, s) ->
             Users.id created <> i))
  /\
  (forall (this : Courses.CoursesService) (i : Z),
     (forall c, c ∈ Courses.courses this -> Courses.id c <> i) ->
     Courses.findOne i this = (inl NotFoundException, this)
     /\ (forall (p : Courses.UpdateCourseDto.t) (now : Z),
           Courses.update i p now this = (inl NotFoundException, this))
     /\ Courses.remove i this = (inl NotFoundException, this)).
Proof.
  split; [| split; [| split]]; cycle 3.
  - intros this i Habs.
    unfold Courses.findOne, Courses.update, Courses.remove, bind, get, throw.
    rewrite (courses_find_absent i _ Habs). auto.
  - intros this i Habs.
    split; [apply findOne_absent; exact Habs |].
    split; [intros p now; apply update_absent; exact Habs |].
    apply remove_absent; exact Habs.
  - exact exec_nextId_mono.
  - intros this this' i Hreach Hrm cs.
    apply reachable_well_formed in Hreach.
    destruct (remove_retires this this' i Hreach Hrm) as (Hnot & Hlt & Hn).
    pose proof (run_retired cs this' i Hnot Hlt) as Hgone.
    pose proof (run_nextId_mono cs this') as Hmono.
    split; [| split].
    + apply findOne_absent. apply absent_iff_not_in_ids. exact Hgone.
    + lia.
    + intros d t1 t2 created s Hc.
      destruct (create_ids d t1 t2 (UsersRun.run cs this'))
        as [(_ & _ & e & He) | (_ & _ & u & Hu & Hid)];
        rewrite Hc in *; simpl in *; [discriminate |].
      injection Hu as <-. lia.
Qed.

Lemma missing_id_and_deletion_finality_witness :
  Users.findOne 9 Users.initial = (inl NotFoundException, Users.initial)
  /\ exists this',
       Users.remove 2 Users.initial = (inr tt, this')
       /\ Users.findOne 2
            (UsersRun.run
               [UsersRun.CallCreate
                  (Users.CreateUserDto.mk "instructor@lms.com" "SecurePass123!" "Jane"
                                          "Smith" Users.INSTRUCTOR None None) 5 5]
               this')
          = (inl NotFoundException,
             UsersRun.run
               [UsersRun.CallCreate
                  (Users.CreateUserDto.mk "instructor@lms.com" "SecurePass123!" "Jane"
                                          "Smith" Users.INSTRUCTOR None None) 5 5]
               this').
Proof.
  split.
  - apply (proj1 missing_id_and_deletion_finality Users.initial 9).
    intros u Hu. simpl in Hu. refute_elem_of Hu.
  - eexists. split; [vm_compute; reflexivity |].
    eapply (proj1 (proj2 (proj2 missing_id_and_deletion_finality)) Users.initial _ 2).
    + exists []. reflexivity.
    + vm_compute. reflexivity.
Defined.

(** ** C7 and C10: [CoursesService.create] *)

Lemma courses_create_result (this : Courses.CoursesService)
    (d : Courses.CreateCourseDto.t) (t1 t2 : Z) :
  Courses.create d t1 t2 this
  = (inr {| Courses.id := Courses.nextId this;
            Courses.title := Courses.CreateCourseDto.title d;
            Courses.description := Courses.CreateCourseDto.description d;
            Courses.level := Courses.CreateCourseDto.level d;
            Courses.duration := Courses.CreateCourseDto.duration d;
            Courses.price := Courses.CreateCourseDto.price d;
            Courses.status := Courses.DRAFT;
            Courses.instructor :=
              {| Courses.Instructor.id :=
                   Js.or_number (Courses.CreateCourseDto.instructorId d) 2;
                 Courses.Instructor.name := "Jane Smith";
                 Courses.Instructor.email := "instructor@lms.com" |};
            Courses.tags := default [] (Courses.CreateCourseDto.tags d);
            Courses.rating := 0;
            Courses.enrolledStudents := 0;
            Courses.createdAt := t1;
            Courses.updatedAt := t2 |},
     {| Courses.courses :=
          Courses.courses this
          ++ [ {| Courses.id := Courses.nextId this;
                  Courses.title := Courses.CreateCourseDto.title d;
                  Courses.description := Courses.CreateCourseDto.description d;
                  Courses.level := Courses.CreateCourseDto.level d;
                  Courses.duration := Courses.CreateCourseDto.duration d;
                  Courses.price := Courses.CreateCourseDto.price d;
                  Courses.status := Courses.DRAFT;
                  Courses.instructor :=
                    {| Courses.Instructor.id :=
                         Js.or_number (Courses.CreateCourseDto.instructorId d) 2;
                       Courses.Instructor.name := "Jane Smith";
                       Courses.Instructor.email := "instructor@lms.com" |};
                  Courses.tags := default [] (Courses.CreateCourseDto.tags d);
                  Courses.rating := 0;
                  Courses.enrolledStudents := 0;
                  Courses.createdAt := t1;
                  Courses.updatedAt := t2 |} ];
        Courses.nextId := Courses.nextId this + 1 |}).
Proof.
  unfold Courses.create, bind, get, put, ret. simpl.
  destruct (Courses.CreateCourseDto.tags d); reflexivity.
Qed.

(** C7: for every draft and every state of the course store, [create]
    succeeds and the created course has status [draft] (the draft class
    has no status property and the method reads none), rating 0, no
    enrolled student and the current value of the id counter as
    identifier, the counter moving on by one, so that successive creations
    get successive identifiers. The draft [{title: "X", level: "beginner",
    duration: 5, price: 10.00}] on the seeded store yields status [draft],
    rating 0, 0 enrolled students and the identifier 4. *)
Theorem course_create_defaults :
  (forall (this : Courses.CoursesService) (d : Courses.CreateCourseDto.t) (t1 t2 : Z),
     exists created,
       Courses.create d t1 t2 this
       = (inr created,
          {| Courses.courses := Courses.courses this ++ [created];
             Courses.nextId := Courses.nextId this + 1 |})
       /\ Courses.status created = Courses.DRAFT
       /\ Courses.rating created = 0%Q
       /\ Courses.enrolledStudents created = 0
       /\ Courses.id created = Courses.nextId this
       /\ forall (d' : Courses.CreateCourseDto.t) (t3 t4 : Z),
          exists created' s',
            Courses.create d' t3 t4
              {| Courses.courses := Courses.courses this ++ [created];
                 Courses.nextId := Courses.nextId this + 1 |}
            = (inr created', s')
            /\ Courses.id created' = Courses.id created + 1)
  /\
  (forall (description : string) (t1 t2 : Z),
   exists created s,
     Courses.create
       (Courses.CreateCourseDto.mk "X" description Courses.BEGINNER 5 (1000 # 100) None None)
       t1 t2 Courses.initial
     = (inr created, s)
     /\ Courses.status created = Courses.DRAFT
     /\ Courses.rating created = 0%Q
     /\ Courses.enrolledStudents created = 0
     /\ Courses.id created = 4
     /\ Courses.title created = "X"
     /\ Courses.level created = Courses.BEGINNER
     /\ Courses.duration created = 5
     /\ Courses.price created = 1000 # 100).
Proof.
  split.
  - intros this d t1 t2. eexists. split; [apply courses_create_result |].
    simpl. repeat (split; [reflexivity |]).
    intros d' t3 t4. do 2 eexists. split; [apply courses_create_result |].
    reflexivity.
  - intros description t1 t2. do 2 eexists.
    split; [apply courses_create_result |].
    simpl. repeat split; reflexivity.
Qed.

(** C10: for every draft, the instructor snapshot of the created course has
    the name [Jane Smith] and the e-mail address [instructor@lms.com]
    whatever [instructorId] the draft has; its identifier is the draft's
    [instructorId], or 2 when that is absent or 0. The method has the course
    store as its only state: no user store is consulted, and an
    [instructorId] of 1, the seeded administrator, still gives the name
    [Jane Smith]. *)
Theorem course_create_instructor_snapshot :
  (forall (this : Courses.CoursesService) (d : Courses.CreateCourseDto.t) (t1 t2 : Z),
     exists created s,
       Courses.create d t1 t2 this = (inr created, s)
       /\ Courses.Instructor.name (Courses.instructor created) = "Jane Smith"
       /\ Courses.Instructor.email (Courses.instructor created) = "instructor@lms.com"
       /\ Courses.Instructor.id (Courses.instructor created)
          = match Courses.CreateCourseDto.instructorId d with
            | None => 2
            | Some 0 => 2
            | Some i => i
            end)
  /\
  (forall (t1 t2 : Z),
   exists created s,
     Courses.create
       (Courses.CreateCourseDto.mk "X" "about X" Courses.BEGINNER 5 (1000 # 100)
                                   (Some 1) None)
       t1 t2 Courses.initial
     = (inr created, s)
     /\ Courses.instructor created
        = {| Courses.Instructor.id := 1;
             Courses.Instructor.name := "Jane Smith";
             Courses.Instructor.email := "instructor@lms.com" |}
     /\ exists admin, Users.users Users.initial !! 0%nat = Some admin
                      /\ Users.id admin = 1
                      /\ Users.fullName admin = "Admin User").
Proof.
  split.
  - intros this d t1 t2. do 2 eexists. split; [apply courses_create_result |].
    simpl. split; [reflexivity |]. split; [reflexivity |].
    destruct (Courses.CreateCourseDto.instructorId d) as [[| p | p] |]; reflexivity.
  - intros t1 t2. do 2 eexists. split; [apply courses_create_result |].
    split; [reflexivity |]. eexists. repeat split; reflexivity.
Qed.

(** ** C8: conjunction of the filters *)

Lemma slice_sublist {A : Type} (l : list A) (start end_ : Z) :
  Js.slice l start end_ `sublist_of` l.
Proof.
  unfold Js.slice.
  etransitivity; [apply sublist_take | apply sublist_drop].
Qed.

Lemma filter_sublist_weaker {A : Type} (f g : A -> bool) (l : list A) :
  (forall x, f x = true -> g x = true) ->
  List.filter f l `sublist_of` List.filter g l.
Proof.
  intros Hfg. induction l as [| x l IH]; simpl; [constructor |].
  destruct (f x) eqn:Hf.
  - rewrite (Hfg x Hf). constructor. exact IH.
  - destruct (g x); [constructor |]; exact IH.
Qed.

(** On users the filters are conjunctive: a user is in the page only if it
    satisfies every supplied filter. *)
Lemma users_findAll_conjunctive (this : Users.UsersService)
    (query : Users.QueryUserDto.t) (u : Users.UserResponseDto) :
  u ∈ data (Users.findAll this query) ->
  u ∈ Users.users this /\ Spec.user_passes query u = true.
Proof.
  unfold Users.findAll, paginate. simpl. intros Hin.
  eapply elem_of_sublist in Hin; [| apply slice_sublist].
  rewrite users_apply_filters in Hin.
  apply list_elem_of_In, filter_In in Hin. destruct Hin as [Hin Hp].
  split; [apply list_elem_of_In |]; assumption.
Qed.

(** On courses as well, but for an [instructorId] of 0, which is skipped. *)
Lemma courses_findAll_conjunctive (this : Courses.CoursesService)
    (query : Courses.QueryCourseDto.t) (c : Courses.CourseResponseDto) :
  c ∈ data (Courses.findAll this query) ->
  c ∈ Courses.courses this /\ course_kept query c = true.
Proof.
  unfold Courses.findAll, paginate. simpl. intros Hin.
  eapply elem_of_sublist in Hin; [| apply slice_sublist].
  rewrite courses_apply_filters_kept in Hin.
  apply list_elem_of_In, filter_In in Hin. destruct Hin as [Hin Hp].
  split; [apply list_elem_of_In |]; assumption.
Qed.

Lemma opt_pred_adds_filter {A B : Type} (p : B -> A -> bool) (o o' : option B) (x : A) :
  Spec.adds_filter o o' -> opt_pred p o' x = true -> opt_pred p o x = true.
Proof. intros [-> | ->]; [reflexivity | trivial]. Qed.

(** Adding filters to a query never adds an entity to the filtered
    sequence. *)
Lemma users_more_filters_fewer_results (this : Users.UsersService)
    (query query' : Users.QueryUserDto.t) :
  Spec.user_query_extends query query' ->
  Users.apply_filters this query' `sublist_of` Users.apply_filters this query.
Proof.
  intros (Hs & Hr & Hst). rewrite !users_apply_filters.
  apply filter_sublist_weaker. intros u. unfold Spec.user_passes.
  rewrite !andb_true_iff. intros [[H1 H2] H3].
  repeat split.
  - exact (opt_pred_adds_filter (fun s => Users.search_matches (Js.toLowerCase s))
             _ _ u Hs H1).
  - exact (opt_pred_adds_filter Users.role_matches _ _ u Hr H2).
  - exact (opt_pred_adds_filter Users.status_matches _ _ u Hst H3).
Qed.

Lemma courses_more_filters_fewer_results (this : Courses.CoursesService)
    (query query' : Courses.QueryCourseDto.t) :
  Spec.course_query_extends query query' ->
  Courses.apply_filters this query' `sublist_of` Courses.apply_filters this query.
Proof.
  intros (Hs & Hl & Hst & Hi & Hmin & Hmax). rewrite !courses_apply_filters_kept.
  apply filter_sublist_weaker. intros c. unfold course_kept.
  rewrite !andb_true_iff. intros [[[[[H1 H2] H3] H4] H5] H6].
  repeat split; try (eapply opt_pred_adds_filter; eassumption).
  destruct Hi as [Hi | Hi]; [rewrite Hi; reflexivity | rewrite <- Hi; exact H4].
Qed.

(** C8 (the code departs from it): [GET /courses?instructorId=0] on the
    seeded store answers with all three courses although none of them has
    the instructor identifier 0, the one supplied filter. [findAll] tests
    [query.instructorId] for truthiness where it tests [query.minPrice] and
    [query.maxPrice] against [undefined], so the filter value 0 is dropped. *)
Theorem findAll_instructorId_zero_unfiltered :
  map Courses.id
      (data (Courses.findAll Courses.initial
               (Courses.QueryCourseDto.mk None None None (Some 0) None None None None)))
  = [1; 2; 3]
  /\ total (Courses.findAll Courses.initial
              (Courses.QueryCourseDto.mk None None None (Some 0) None None None None))
     = 3
  /\ Forall (fun c =>
               Spec.course_passes
                 (Courses.QueryCourseDto.mk None None None (Some 0) None None None None) c
               = false)
            (data (Courses.findAll Courses.initial
                     (Courses.QueryCourseDto.mk None None None (Some 0) None None None None)))
  /\ data (Courses.findAll Courses.initial
             (Courses.QueryCourseDto.mk None None None None (Some 0%Q) None None None))
     = Courses.courses Courses.initial
  /\ data (Courses.findAll Courses.initial
             (Courses.QueryCourseDto.mk None None None None None (Some 0%Q) None None))
     = [].
Proof.
  split; [reflexivity |]. split; [reflexivity |].
  split; [repeat constructor |]. split; reflexivity.
Qed.

(** ** C9: the derived full name *)

Lemma truthy_string_true (s : string) : s <> "" -> Js.truthy_string s = true.
Proof.
  intros Hs. unfold Js.truthy_string. apply negb_true_iff.
  apply String.eqb_neq. exact Hs.
Qed.

(** C9 (as stated) fails twice. Patching the first name of the seeded user
    3 to the empty string stores an empty [firstName] and keeps the full
    name [Bob Johnson]. And [create] joins the two names as they are: for
    the first name [" Ann"] the full name starts with a space, under either
    reading of "trim-joined". *)
Lemma fullName_counterexample :
  (exists updated s,
     Users.update 3 (Users.UpdateUserDto.mk (Some "") None None None None) 7 Users.initial
     = (inr updated, s)
     /\ Users.firstName updated = ""
     /\ Users.lastName updated = "Johnson"
     /\ Users.fullName updated = "Bob Johnson"
     /\ Users.fullName updated <> Users.firstName updated ++ " " ++ Users.lastName updated
     /\ Users.fullName updated
        <> Spec.trim_join (Users.firstName updated) (Users.lastName updated))
  /\
  (exists created s,
     Users.create (Users.CreateUserDto.mk "ann@lms.com" "SecurePass123!" " Ann" "Doe"
                                          Users.STUDENT None None) 7 7 Users.initial
     = (inr created, s)
     /\ Users.fullName created = " Ann Doe"
     /\ Spec.trim_join (Users.firstName created) (Users.lastName created) = "Ann Doe"
     /\ Spec.join_trimmed (Users.firstName created) (Users.lastName created) = "Ann Doe").
Proof.
  split; do 2 eexists; (split; [vm_compute; reflexivity |]).
  - repeat split; try reflexivity; vm_compute; discriminate.
  - repeat split; reflexivity.
Qed.

(** C9 (amended): the stored [fullName] is the first name, one space and
    the last name, joined as they are (nothing is trimmed). [create] sets it
    so from the draft's names. [update] sets it so from the record's names
    after the patch whenever the patch has a name part and no name part of
    it is the empty string, and keeps [fullName], [firstName] and [lastName]
    as stored when the patch has no name part. Hence both calls keep every
    stored [fullName] equal to [firstName + " " + lastName], as the seeded
    ones are, for patches without an empty name part. *)
Theorem fullName_recomputed :
  (forall (this s : Users.UsersService) (d : Users.CreateUserDto.t) (t1 t2 : Z)
          (created : Users.UserResponseDto),
     Users.create d t1 t2 this = (inr created, s) ->
     Users.firstName created = Users.CreateUserDto.firstName d
     /\ Users.lastName created = Users.CreateUserDto.lastName d
     /\ Spec.full_name_joined created)
  /\
  (forall (this s : Users.UsersService) (i : Z) (p : Users.UpdateUserDto.t) (now : Z)
          (updated : Users.UserResponseDto),
     Users.update i p now this = (inr updated, s) ->
     Users.UpdateUserDto.firstName p <> Some "" ->
     Users.UpdateUserDto.lastName p <> Some "" ->
     (Users.UpdateUserDto.firstName p <> None \/ Users.UpdateUserDto.lastName p <> None ->
      Spec.full_name_joined updated)
     /\ (Users.UpdateUserDto.firstName p = None ->
         Users.UpdateUserDto.lastName p = None ->
         exists existing,
           existing ∈ Users.users this /\ Users.id existing = i
           /\ Users.fullName updated = Users.fullName existing
           /\ Users.firstName updated = Users.firstName existing
           /\ Users.lastName updated = Users.lastName existing)
     /\ (Forall Spec.full_name_joined (Users.users this) ->
         Forall Spec.full_name_joined (Users.users s)))
  /\
  (forall (this s : Users.UsersService) (d : Users.CreateUserDto.t) (t1 t2 : Z)
          (created : Users.UserResponseDto),
     Users.create d t1 t2 this = (inr created, s) ->
     Forall Spec.full_name_joined (Users.users this) ->
     Forall Spec.full_name_joined (Users.users s))
  /\ Forall Spec.full_name_joined (Users.users Users.initial).
Proof.
  assert (Hcreate : forall this s d t1 t2 created,
            Users.create d t1 t2 this = (inr created, s) ->
            Users.firstName created = Users.CreateUserDto.firstName d
            /\ Users.lastName created = Users.CreateUserDto.lastName d
            /\ Spec.full_name_joined created
            /\ Users.users s = (Users.users this ++ [created])%list).
  { intros this s d t1 t2 created. unfold Users.create, bind, get, put, ret, throw.
    destruct (Users.findByEmail this _); [discriminate |].
    intros [= <- <-]. repeat split. }
  split; [| split; [| split]].
  - intros this s d t1 t2 created Hc.
    destruct (Hcreate _ _ _ _ _ _ Hc) as (H1 & H2 & H3 & _). auto.
  - intros this s i p now updated Hu Hf Hl.
    unfold Users.update, bind, get, put, ret, throw, Users.find_by_id in Hu.
    destruct (list_find _ (Users.users this)) as [[idx existing] |] eqn:Hfind;
      [| discriminate].
    apply list_find_Some in Hfind. destruct Hfind as (Hlook & Hid & _).
    injection Hu as Hupd Hs. rewrite Hupd in Hs.
    assert (Hjoined : Users.UpdateUserDto.firstName p <> None
                      \/ Users.UpdateUserDto.lastName p <> None ->
                      Spec.full_name_joined updated).
    { intros Hsome. subst updated. unfold Spec.full_name_joined. simpl.
      unfold Users.truthy_opt, Js.or_string, Users.spread.
      destruct (Users.UpdateUserDto.firstName p) as [f |],
               (Users.UpdateUserDto.lastName p) as [l |];
        try rewrite (truthy_string_true f) by congruence;
        try rewrite (truthy_string_true l) by congruence;
        try reflexivity.
      destruct Hsome; congruence. }
    assert (Hkept : Users.UpdateUserDto.firstName p = None ->
                    Users.UpdateUserDto.lastName p = None ->
                    Users.fullName updated = Users.fullName existing
                    /\ Users.firstName updated = Users.firstName existing
                    /\ Users.lastName updated = Users.lastName existing).
    { intros Hf0 Hl0. subst updated. simpl. rewrite Hf0, Hl0. auto. }
    split; [exact Hjoined |]. split.
    + intros Hf0 Hl0. exists existing.
      split; [eapply list_elem_of_lookup_2; exact Hlook |].
      split; [exact Hid |]. apply Hkept; assumption.
    + intros Hall. subst s. simpl. apply Forall_insert; [exact Hall |].
      destruct (Users.UpdateUserDto.firstName p) as [f |] eqn:Ef;
        [apply Hjoined; left; congruence |].
      destruct (Users.UpdateUserDto.lastName p) as [l |] eqn:El;
        [apply Hjoined; right; congruence |].
      destruct (Hkept eq_refl eq_refl) as (H1 & H2 & H3).
      unfold Spec.full_name_joined. rewrite H1, H2, H3.
      rewrite Forall_forall in Hall. apply Hall.
      eapply list_elem_of_lookup_2. exact Hlook.
  - intros this s d t1 t2 created Hc Hall.
    destruct (Hcreate _ _ _ _ _ _ Hc) as (_ & _ & H3 & ->).
    apply Forall_app. split; [exact Hall |]. repeat constructor. exact H3.
  - simpl. repeat constructor.
Qed.

Lemma fullName_recomputed_witness :
  exists updated s,
    Users.update 3 (Users.UpdateUserDto.mk (Some "Robert") None None None None) 7
                 Users.initial
    = (inr updated, s)
    /\ Users.fullName updated = "Robert Johnson"
    /\ Spec.full_name_joined updated.
Proof.
  do 2 eexists. split; [vm_compute; reflexivity |]. split; [reflexivity |].
  eapply (proj1 (proj1 (proj2 fullName_recomputed) Users.initial _ 3
                   (Users.UpdateUserDto.mk (Some "Robert") None None None None) 7 _
                   ltac:(vm_compute; reflexivity) ltac:(discriminate) ltac:(discriminate))).
  left. discriminate.
Defined.

(** * Further properties of the services *)

(** ** Lists searched by a key, as both stores are *)

Section KeyedList.
Context {A : Type} (key : A -> Z).
Implicit Types (l : list A) (x y : A) (i j : Z).

Lemma keyed_find_replace l idx x y i :
  list_find (fun a => key a = i) l = Some (idx, x) ->
  key y = i ->
  list_find (fun a => key a = i) (<[idx := y]> l) = Some (idx, y).
Proof.
  intros Hf Hy. apply list_find_Some in Hf. destruct Hf as (Hl & Hx & Hbefore).
  apply list_find_Some. split; [| split; [exact Hy |]].
  - apply list_lookup_insert_eq. eapply lookup_lt_Some. exact Hl.
  - intros k z Hk Hlt. rewrite list_lookup_insert_ne in Hk by lia.
    eapply Hbefore; eassumption.
Qed.

Lemma keyed_find_replace_other l idx x y j :
  l !! idx = Some x -> key x <> j -> key y <> j ->
  list_find (fun a => key a = j) (<[idx := y]> l)
  = list_find (fun a => key a = j) l.
Proof.
  revert idx. induction l as [| a l IH]; intros idx Hl Hx Hy; [reflexivity |].
  destruct idx as [| idx]; simpl in *.
  - injection Hl as ->. rewrite !decide_False by assumption. reflexivity.
  - destruct (decide (key a = j)); [reflexivity |].
    rewrite (IH idx Hl Hx Hy). reflexivity.
Qed.

Lemma keyed_find_delete_other l idx x j :
  l !! idx = Some x -> key x <> j ->
  found (list_find (fun a => key a = j) (delete idx l))
  = found (list_find (fun a => key a = j) l).
Proof.
  revert idx. induction l as [| a l IH]; intros idx Hl Hx; [reflexivity |].
  destruct idx as [| idx]; simpl in *.
  - injection Hl as ->. rewrite decide_False by assumption.
    destruct (list_find _ l) as [[? ?] |]; reflexivity.
  - destruct (decide (key a = j)); [reflexivity |].
    specialize (IH idx Hl Hx).
    destruct (list_find _ (delete idx l)) as [[? ?] |],
             (list_find _ l) as [[? ?] |]; simpl in *; congruence.
Qed.

Lemma keyed_find_append_new l y (n : Z) :
  Forall (fun k => k < n) (key <$> l) -> key y = n ->
  list_find (fun a => key a = n) (l ++ [y]) = Some (length l, y).
Proof.
  intros Hlt Hy. apply list_find_Some. split; [| split; [exact Hy |]].
  - rewrite lookup_app_r by lia. rewrite Nat.sub_diag. reflexivity.
  - intros k z Hk Hk' Hz. rewrite lookup_app_l in Hk by exact Hk'.
    rewrite Forall_forall in Hlt.
    assert (key z < n); [| lia].
    apply Hlt. apply list_elem_of_fmap. exists z.
    split; [reflexivity | eapply list_elem_of_lookup_2; exact Hk].
Qed.

Lemma keyed_find_append_other l y j :
  key y <> j ->
  found (list_find (fun a => key a = j) (l ++ [y]))
  = found (list_find (fun a => key a = j) l).
Proof.
  intros Hy. induction l as [| a l IH]; simpl.
  - rewrite decide_False by assumption. reflexivity.
  - destruct (decide (key a = j)); [reflexivity |].
    destruct (list_find _ (l ++ [y])) as [[? ?] |],
             (list_find _ l) as [[? ?] |]; simpl in *; congruence.
Qed.

(** With distinct keys, deleting the record at an index is deleting every
    record with its key. *)
Lemma keyed_delete_filter l idx x :
  NoDup (key <$> l) -> l !! idx = Some x ->
  delete idx l = List.filter (fun a => negb (key a =? key x)) l.
Proof.
  revert idx. induction l as [| a l IH]; intros idx Hnd Hl; [discriminate |].
  rewrite fmap_cons in Hnd. apply NoDup_cons in Hnd. destruct Hnd as [Ha Hnd].
  destruct idx as [| idx]; simpl in *.
  - injection Hl as ->. rewrite Z.eqb_refl. simpl.
    rewrite <- (filter_true l) at 1. apply filter_ext_in.
    intros b Hb. apply list_elem_of_In in Hb.
    destruct (Z.eqb_spec (key b) (key x)) as [Heq | _]; [| reflexivity].
    exfalso. apply Ha. rewrite <- Heq. apply list_elem_of_fmap. eauto.
  - destruct (Z.eqb_spec (key a) (key x)) as [Heq | _]; simpl.
    + exfalso. apply Ha. rewrite Heq. apply list_elem_of_fmap. exists x.
      split; [reflexivity | eapply list_elem_of_lookup_2; exact Hl].
    + rewrite (IH idx Hnd Hl). reflexivity.
Qed.

End KeyedList.

(** ** Walking through all pages *)

Section Pages.
Context {A : Type}.
Implicit Types l : list A.

Lemma concat_windows l (lim n : nat) :
  concat (map (fun k => take lim (drop (k * lim) l)) (seq 0 n)) = take (n * lim) l.
Proof.
  induction n as [| n IH]; [reflexivity |].
  rewrite seq_S, map_app, concat_app, IH. simpl.
  rewrite app_nil_r, take_take_drop. f_equal. lia.
Qed.

Lemma paginate_window l (k : nat) (lim : Z) :
  1 <= lim ->
  data (paginate l (Some (Z.of_nat (S k))) (Some lim))
  = take (Z.to_nat lim) (drop (k * Z.to_nat lim) l).
Proof.
  intros Hlim. unfold paginate, Js.or_number. simpl data.
  destruct (Z.eqb_spec (Z.of_nat (S k)) 0) as [? | _]; [lia |].
  destruct (Z.eqb_spec lim 0) as [? | _]; [lia |].
  rewrite slice_nonneg by nia. do 2 f_equal. nia.
Qed.

Lemma paginate_concat l (lim : Z) (n : nat) :
  1 <= lim -> Z.of_nat (length l) <= Z.of_nat n * lim ->
  concat (map (fun p => data (paginate l (Some p) (Some lim))) (pages n)) = l.
Proof.
  intros Hlim Hn. unfold pages. rewrite map_map.
  rewrite (map_ext _ (fun k => take (Z.to_nat lim) (drop (k * Z.to_nat lim) l)))
    by (intros k; apply paginate_window; exact Hlim).
  rewrite concat_windows. apply take_ge. nia.
Qed.

Lemma slice_length l (start end_ : Z) :
  start <= end_ ->
  Z.of_nat (length (Js.slice l start end_)) <= end_ - start.
Proof.
  intros Hle. unfold Js.slice, Js.relative_index. rewrite length_take, length_drop.
  destruct (Z.ltb_spec start 0), (Z.ltb_spec end_ 0); lia.
Qed.

Lemma paginate_bounds l (qpage qlimit : option Z) :
  data (paginate l qpage qlimit) `sublist_of` l
  /\ (0 <= limit (paginate l qpage qlimit) ->
      Z.of_nat (length (data (paginate l qpage qlimit)))
      <= limit (paginate l qpage qlimit))
  /\ Z.of_nat (length (data (paginate l qpage qlimit))) <= total (paginate l qpage qlimit)
  /\ total (paginate l qpage qlimit) = Z.of_nat (length l)
  /\ page (paginate l qpage qlimit) <> 0
  /\ limit (paginate l qpage qlimit) <> 0.
Proof.
  unfold paginate. simpl. split; [apply slice_sublist |]. split.
  - intros Hl. etransitivity; [apply slice_length |]; lia.
  - split; [| split; [reflexivity |]].
    + apply inj_le. apply sublist_length. apply slice_sublist.
    + unfold Js.or_number. split.
      * destruct qpage as [p |]; [destruct (Z.eqb_spec p 0) |]; lia.
      * destruct qlimit as [p |]; [destruct (Z.eqb_spec p 0) |]; lia.
Qed.

End Pages.

Lemma filter_sublist_of {A : Type} (f : A -> bool) (l : list A) :
  List.filter f l `sublist_of` l.
Proof.
  induction l as [| x l IH]; simpl; [constructor |].
  destruct (f x); constructor; exact IH.
Qed.

(** X1: read page by page with a limit of at least 1, a listing is complete
    and free of repetition: the pages [1 .. n], with [n * limit] no less
    than the number of matches, concatenated in order, are exactly the
    stored users that pass every filter of the query (for courses: the
    courses the filter stage keeps), in store order. *)
Theorem pagination_complete :
  (forall (this : Users.UsersService) (query : Users.QueryUserDto.t) (l : Z) (n : nat),
     1 <= l ->
     total (Users.findAll this query) <= Z.of_nat n * l ->
     concat (map (fun p => data (Users.findAll this (users_page query p l))) (pages n))
     = List.filter (Spec.user_passes query) (Users.users this))
  /\
  (forall (this : Courses.CoursesService) (query : Courses.QueryCourseDto.t)
          (l : Z) (n : nat),
     1 <= l ->
     total (Courses.findAll this query) <= Z.of_nat n * l ->
     concat (map (fun p => data (Courses.findAll this (courses_page query p l))) (pages n))
     = List.filter (course_kept query) (Courses.courses this)).
Proof.
  split.
  - intros this query l n Hl Hn. rewrite <- users_apply_filters.
    apply (paginate_concat (Users.apply_filters this query) l n Hl Hn).
  - intros this query l n Hl Hn. rewrite <- courses_apply_filters_kept.
    apply (paginate_concat (Courses.apply_filters this query) l n Hl Hn).
Qed.

Lemma pagination_complete_witness :
  map Users.id
      (concat (map (fun p => data (Users.findAll Users.initial
                                     (users_page
                                        (Users.QueryUserDto.mk (Some "lms") None None None None)
                                        p 2)))
                   (pages 2)))
  = [1; 2; 3].
Proof.
  rewrite (proj1 pagination_complete Users.initial
             (Users.QueryUserDto.mk (Some "lms") None None None None) 2 2%nat
             ltac:(lia) ltac:(vm_compute; discriminate)).
  reflexivity.
Defined.

(** X2: whatever the query, also with a zero or negative [page], a page of
    [findAll] holds stored records only, in store order, never more of them
    than [total], and never more than the effective limit unless that is
    negative; [total] counts the matches and does not depend on [page] and
    [limit]; and the [page] and [limit] echoed in the envelope are never
    0. *)
Theorem findAll_page_bounds :
  (forall (this : Users.UsersService) (query : Users.QueryUserDto.t),
     data (Users.findAll this query) `sublist_of` Users.users this
     /\ (0 <= limit (Users.findAll this query) ->
         Z.of_nat (length (data (Users.findAll this query)))
         <= limit (Users.findAll this query))
     /\ Z.of_nat (length (data (Users.findAll this query)))
        <= total (Users.findAll this query)
     /\ total (Users.findAll this query) <= Z.of_nat (length (Users.users this))
     /\ (forall p l : Z,
           total (Users.findAll this (users_page query p l))
           = total (Users.findAll this query))
     /\ page (Users.findAll this query) <> 0
     /\ limit (Users.findAll this query) <> 0)
  /\
  (forall (this : Courses.CoursesService) (query : Courses.QueryCourseDto.t),
     data (Courses.findAll this query) `sublist_of` Courses.courses this
     /\ (0 <= limit (Courses.findAll this query) ->
         Z.of_nat (length (data (Courses.findAll this query)))
         <= limit (Courses.findAll this query))
     /\ Z.of_nat (length (data (Courses.findAll this query)))
        <= total (Courses.findAll this query)
     /\ total (Courses.findAll this query) <= Z.of_nat (length (Courses.courses this))
     /\ (forall p l : Z,
           total (Courses.findAll this (courses_page query p l))
           = total (Courses.findAll this query))
     /\ page (Courses.findAll this query) <> 0
     /\ limit (Courses.findAll this query) <> 0).
Proof.
  split.
  - intros this query. unfold Users.findAll.
    destruct (paginate_bounds (Users.apply_filters this query)
                (Users.QueryUserDto.page query) (Users.QueryUserDto.limit query))
      as (Hsub & Hlim & Htot & Hlen & Hp & Hl).
    assert (Hf : Users.apply_filters this query `sublist_of` Users.users this)
      by (rewrite users_apply_filters; apply filter_sublist_of).
    split; [etransitivity; eassumption |].
    split; [exact Hlim |]. split; [exact Htot |].
    split; [rewrite Hlen; apply inj_le, sublist_length, Hf |].
    split; [reflexivity |]. split; assumption.
  - intros this query. unfold Courses.findAll.
    destruct (paginate_bounds (Courses.apply_filters this query)
                (Courses.QueryCourseDto.page query) (Courses.QueryCourseDto.limit query))
      as (Hsub & Hlim & Htot & Hlen & Hp & Hl).
    assert (Hf : Courses.apply_filters this query `sublist_of` Courses.courses this)
      by (rewrite courses_apply_filters_kept; apply filter_sublist_of).
    split; [etransitivity; eassumption |].
    split; [exact Hlim |]. split; [exact Htot |].
    split; [rewrite Hlen; apply inj_le, sublist_length, Hf |].
    split; [reflexivity |]. split; assumption.
Qed.

(** ** The user store between calls *)

Section UsersStore.
Import Users UsersRun.

Lemma findOne_found (i : Z) (this : UsersService) :
  findOne i this = (found (find_by_id i (users this)), this).
Proof.
  unfold findOne, bind, get, ret, throw, found.
  destruct (find_by_id i (users this)) as [[? ?] |]; reflexivity.
Qed.

Lemma findByEmail_None_inv (this : UsersService) (e : string) :
  findByEmail this e = None -> e ∉ map email (users this).
Proof.
  unfold findByEmail. intros Hf Hin.
  apply list_elem_of_fmap in Hin. destruct Hin as (u & -> & Hu).
  apply list_elem_of_In in Hu. pose proof (find_none _ _ Hf u Hu) as Hne.
  simpl in Hne. rewrite String.eqb_refl in Hne. discriminate.
Qed.

Lemma exec_emails_NoDup (c : Call) (this : UsersService) :
  NoDup (map email (users this)) -> NoDup (map email (users (exec c this))).
Proof.
  intros Hnd. destruct c as [q | i | d t1 t2 | i p now | i]; simpl.
  - exact Hnd.
  - rewrite findOne_state. exact Hnd.
  - unfold create, bind, get, put, ret, throw.
    destruct (findByEmail this _) eqn:Hf; simpl; [exact Hnd |].
    rewrite map_app. simpl. apply NoDup_app. split; [exact Hnd |].
    split; [| apply NoDup_singleton].
    intros e He He'. apply list_elem_of_singleton in He'. subst e.
    exact (findByEmail_None_inv this _ Hf He).
  - unfold update, bind, get, put, ret, throw, find_by_id.
    destruct (list_find _ (users this)) as [[idx existing] |] eqn:Hf; simpl;
      [| exact Hnd].
    apply list_find_Some in Hf. destruct Hf as (Hl & _ & _).
    change (map email ?l) with (email <$> l).
    rewrite list_fmap_insert. simpl. rewrite list_insert_id; [exact Hnd |].
    rewrite list_lookup_fmap, Hl. reflexivity.
  - unfold remove, bind, get, put, throw, find_by_id.
    destruct (list_find _ (users this)) as [[idx existing] |]; simpl; [| exact Hnd].
    change (map email ?l) with (email <$> l).
    rewrite list_fmap_delete. apply NoDup_delete_index. exact Hnd.
Qed.

Lemma run_emails_NoDup (cs : list Call) (this : UsersService) :
  NoDup (map email (users this)) -> NoDup (map email (users (run cs this))).
Proof.
  revert this. induction cs as [| c cs IH]; intros this Hnd; simpl; [exact Hnd |].
  apply IH. apply exec_emails_NoDup. exact Hnd.
Qed.

End UsersStore.

(** X3: in every state the user service can reach from its seeded state,
    by any sequence of calls with any arguments, the stored identifiers are
    pairwise distinct, every one of them is below the id counter, and the
    counter is at least its initial value 4. *)
Theorem users_ids_invariant :
  forall this : Users.UsersService,
    UsersRun.reachable this ->
    NoDup (map Users.id (Users.users this))
    /\ (forall u, u ∈ Users.users this -> Users.id u < Users.nextId this)
    /\ 4 <= Users.nextId this.
Proof.
  intros this Hreach.
  destruct (reachable_well_formed this Hreach) as [Hnd Hlt].
  split; [exact Hnd |]. split.
  - intros u Hu. rewrite Forall_forall in Hlt. apply Hlt.
    apply list_elem_of_fmap. eauto.
  - destruct Hreach as [cs ->]. exact (run_nextId_mono cs Users.initial).
Qed.

Lemma users_ids_invariant_witness :
  NoDup (map Users.id
           (Users.users
              (UsersRun.run
                 [UsersRun.CallRemove 2;
                  UsersRun.CallCreate
                    (Users.CreateUserDto.mk "ann@lms.com" "SecurePass123!" "Ann" "Doe"
                                            Users.STUDENT None None) 5 5]
                 Users.initial))).
Proof.
  apply (users_ids_invariant _ ltac:(eexists; reflexivity)).
Defined.

(** X4: in every reachable state of the user service no two stored users
    have the same e-mail address: [create] refuses a stored address,
    [update] cannot change one, [remove] only deletes. *)
Theorem users_emails_unique :
  forall this : Users.UsersService,
    UsersRun.reachable this ->
    NoDup (map Users.email (Users.users this))
    /\ (forall (i j : nat) (u v : Users.UserResponseDto),
          Users.users this !! i = Some u -> Users.users this !! j = Some v ->
          Users.email u = Users.email v -> i = j).
Proof.
  intros this [cs ->].
  assert (Hnd : NoDup (map Users.email (Users.users (UsersRun.run cs Users.initial)))).
  { apply run_emails_NoDup. simpl.
    repeat constructor; intros H; refute_elem_of H. }
  split; [exact Hnd |].
  intros i j u v Hi Hj He.
  eapply (NoDup_lookup _ i j (Users.email u) Hnd).
  - change (map Users.email ?l) with (Users.email <$> l).
    rewrite list_lookup_fmap, Hi. reflexivity.
  - change (map Users.email ?l) with (Users.email <$> l).
    rewrite list_lookup_fmap, Hj. simpl. congruence.
Qed.

Lemma users_emails_unique_witness :
  NoDup (map Users.email
           (Users.users
              (UsersRun.run
                 [UsersRun.CallCreate
                    (Users.CreateUserDto.mk "ann@lms.com" "SecurePass123!" "Ann" "Doe"
                                            Users.STUDENT None None) 5 5;
                  UsersRun.CallCreate
                    (Users.CreateUserDto.mk "ann@lms.com" "OtherPass456!" "Anna" "Roe"
                                            Users.ADMIN None None) 6 6]
                 Users.initial))).
Proof.
  apply (users_emails_unique _ ltac:(eexists; reflexivity)).
Defined.


Lemma users_update_readback :
  forall (this s : Users.UsersService) (i : Z) (p : Users.UpdateUserDto.t) (now : Z)
          (updated : Users.UserResponseDto),
     Users.update i p now this = (inr updated, s) ->
     Users.findOne i s = (inr updated, s)
     /\ (forall j, j <> i -> fst (Users.findOne j s) = fst (Users.findOne j this))
     /\ length (Users.users s) = length (Users.users this)
     /\ Users.nextId s = Users.nextId this.
Proof.
  intros this s i p now updated Hu.
  unfold Users.update, bind, get, put, ret, throw in Hu.
  destruct (Users.find_by_id i (Users.users this)) as [[idx existing] |] eqn:Hf;
    [| discriminate].
  injection Hu as Hupd Hs. rewrite Hupd in Hs. subst s.
  pose proof Hf as Hf'. apply list_find_Some in Hf'. destruct Hf' as (Hl & Hid & _).
  assert (Hidu : Users.id updated = i) by (subst updated; exact Hid).
  unfold Users.findOne, bind, get, ret, throw. simpl.
  split; [| split; [| split; [apply length_insert | reflexivity]]].
  + unfold Users.find_by_id in *.
    rewrite (keyed_find_replace Users.id _ idx existing updated i Hf Hidu).
    reflexivity.
  + intros j Hj. unfold Users.find_by_id.
    rewrite (keyed_find_replace_other Users.id _ idx existing updated j Hl)
      by congruence.
    destruct (list_find _ (Users.users this)) as [[? ?] |]; reflexivity.
Qed.

Lemma courses_update_readback :
  forall (this s : Courses.CoursesService) (i : Z) (p : Courses.UpdateCourseDto.t)
          (now : Z) (updated : Courses.CourseResponseDto),
     Courses.update i p now this = (inr updated, s) ->
     Courses.findOne i s = (inr updated, s)
     /\ (forall j, j <> i -> fst (Courses.findOne j s) = fst (Courses.findOne j this))
     /\ length (Courses.courses s) = length (Courses.courses this)
     /\ Courses.nextId s = Courses.nextId this.
Proof.
  intros this s i p now updated Hu.
  unfold Courses.update, bind, get, put, ret, throw in Hu.
  destruct (Courses.find_by_id i (Courses.courses this)) as [[idx existing] |] eqn:Hf;
    [| discriminate].
  injection Hu as Hupd Hs. rewrite Hupd in Hs. subst s.
  pose proof Hf as Hf'. apply list_find_Some in Hf'. destruct Hf' as (Hl & Hid & _).
  assert (Hidu : Courses.id updated = i) by (subst updated; exact Hid).
  unfold Courses.findOne, bind, get, ret, throw. simpl.
  split; [| split; [| split; [apply length_insert | reflexivity]]].
  + unfold Courses.find_by_id in *.
    rewrite (keyed_find_replace Courses.id _ idx existing updated i Hf Hidu).
    reflexivity.
  + intros j Hj. unfold Courses.find_by_id.
    rewrite (keyed_find_replace_other Courses.id _ idx existing updated j Hl)
      by congruence.
    destruct (list_find _ (Courses.courses this)) as [[? ?] |]; reflexivity.
Qed.

(** X6: an update can be read back and touches one identifier only: after
    a successful [update] of an identifier, in either service and from any
    state, [findOne] on it returns the very record [update] returned,
    [findOne] on any other identifier answers as before, and the number of
    records and the id counter are unchanged. *)
Theorem update_then_findOne :
  (forall (this s : Users.UsersService) (i : Z) (p : Users.UpdateUserDto.t) (now : Z)
          (updated : Users.UserResponseDto),
     Users.update i p now this = (inr updated, s) ->
     Users.findOne i s = (inr updated, s)
     /\ (forall j, j <> i -> fst (Users.findOne j s) = fst (Users.findOne j this))
     /\ length (Users.users s) = length (Users.users this)
     /\ Users.nextId s = Users.nextId this)
  /\
  (forall (this s : Courses.CoursesService) (i : Z) (p : Courses.UpdateCourseDto.t)
          (now : Z) (updated : Courses.CourseResponseDto),
     Courses.update i p now this = (inr updated, s) ->
     Courses.findOne i s = (inr updated, s)
     /\ (forall j, j <> i -> fst (Courses.findOne j s) = fst (Courses.findOne j this))
     /\ length (Courses.courses s) = length (Courses.courses this)
     /\ Courses.nextId s = Courses.nextId this).
Proof.
  split; [exact users_update_readback | exact courses_update_readback].
Qed.

Lemma update_then_findOne_witness :
  exists updated s,
    Users.update 2 (Users.UpdateUserDto.mk None (Some "Doe") None None
                                            (Some Users.SUSPENDED)) 9 Users.initial
    = (inr updated, s)
    /\ Users.findOne 2 s = (inr updated, s)
    /\ Users.fullName updated = "Jane Doe".
Proof.
  do 2 eexists. split; [vm_compute; reflexivity |]. split; [| reflexivity].
  apply (proj1 update_then_findOne Users.initial _ 2
           (Users.UpdateUserDto.mk None (Some "Doe") None None (Some Users.SUSPENDED)) 9 _).
  vm_compute. reflexivity.
Defined.

(** ** The course store between calls *)

Section CoursesStore.
Import Courses CoursesRun.

Lemma courses_findOne_found (i : Z) (this : CoursesService) :
  findOne i this = (found (find_by_id i (courses this)), this).
Proof.
  unfold findOne, bind, get, ret, throw, found.
  destruct (find_by_id i (courses this)) as [[? ?] |]; reflexivity.
Qed.

Lemma courses_exec_nextId_mono (c : Call) (this : CoursesService) :
  nextId this <= nextId (exec c this).
Proof.
  destruct c as [q | i | d t1 t2 | i p now | i]; cbn [exec].
  - lia.
  - rewrite courses_findOne_found. simpl. lia.
  - rewrite courses_create_result. simpl. lia.
  - unfold update, bind, get, put, ret, throw.
    destruct (find_by_id i (courses this)) as [[? ?] |]; simpl; lia.
  - unfold remove, bind, get, put, throw.
    destruct (find_by_id i (courses this)) as [[? ?] |]; simpl; lia.
Qed.

Lemma courses_run_nextId_mono (cs : list Call) (this : CoursesService) :
  nextId this <= nextId (run cs this).
Proof.
  revert this. induction cs as [| c cs IH]; intros this; simpl; [lia |].
  pose proof (courses_exec_nextId_mono c this). pose proof (IH (exec c this)).
  unfold run in *. lia.
Qed.

Lemma courses_exec_well_formed (c : Call) (this : CoursesService) :
  well_formed this -> well_formed (exec c this).
Proof.
  intros [Hnd Hlt]. unfold well_formed, ids in *.
  destruct c as [q | i | d t1 t2 | i p now | i]; cbn [exec].
  - auto.
  - rewrite courses_findOne_found. auto.
  - rewrite courses_create_result. simpl. rewrite map_app. simpl. split.
    + apply NoDup_app. split; [exact Hnd |]. split; [| apply NoDup_singleton].
      intros x Hx Hx'. apply list_elem_of_singleton in Hx'. subst x.
      rewrite Forall_forall in Hlt. specialize (Hlt _ Hx). lia.
    + apply Forall_app. split.
      * eapply Forall_impl; [exact Hlt |]. simpl. intros; lia.
      * repeat constructor. lia.
  - unfold update, bind, get, put, ret, throw, find_by_id.
    destruct (list_find _ (courses this)) as [[idx existing] |] eqn:Hf; simpl;
      [| auto].
    apply list_find_Some in Hf. destruct Hf as (Hl & _ & _).
    change (map id ?l) with (id <$> l).
    rewrite list_fmap_insert. simpl. rewrite list_insert_id; [auto |].
    rewrite list_lookup_fmap, Hl. reflexivity.
  - unfold remove, bind, get, put, throw, find_by_id.
    destruct (list_find _ (courses this)) as [[idx existing] |]; simpl; [| auto].
    change (map id ?l) with (id <$> l). rewrite list_fmap_delete.
    split; [apply NoDup_delete_index | apply Forall_delete_index]; assumption.
Qed.

Lemma courses_reachable_well_formed (this : CoursesService) :
  reachable this -> well_formed this.
Proof.
  intros [cs ->].
  assert (Hrun : forall cs s, well_formed s -> well_formed (run cs s)).
  { clear cs. intros cs. induction cs as [| c cs IH]; intros s Hs; simpl; [exact Hs |].
    apply IH. apply courses_exec_well_formed. exact Hs. }
  apply Hrun. split; unfold ids; simpl.
  - repeat constructor; intros H; refute_elem_of H.
  - repeat constructor; lia.
Qed.

Lemma courses_exec_retired (c : Call) (this : CoursesService) (i : Z) :
  i ∉ ids this -> i < nextId this -> i ∉ ids (exec c this).
Proof.
  intros Hnot Hlt. unfold ids in *.
  destruct c as [q | j | d t1 t2 | j p now | j]; cbn [exec].
  - exact Hnot.
  - rewrite courses_findOne_found. exact Hnot.
  - rewrite courses_create_result. simpl. rewrite map_app. simpl.
    intros Hin. apply elem_of_app in Hin. destruct Hin as [Hin | Hin]; [auto |].
    apply list_elem_of_singleton in Hin. lia.
  - unfold update, bind, get, put, ret, throw, find_by_id.
    destruct (list_find _ (courses this)) as [[idx existing] |] eqn:Hf; simpl;
      [| exact Hnot].
    apply list_find_Some in Hf. destruct Hf as (Hl & _ & _).
    change (map id ?l) with (id <$> l).
    rewrite list_fmap_insert. simpl. rewrite list_insert_id; [exact Hnot |].
    rewrite list_lookup_fmap, Hl. reflexivity.
  - unfold remove, bind, get, put, throw, find_by_id.
    destruct (list_find _ (courses this)) as [[idx existing] |]; simpl; [| exact Hnot].
    change (map id ?l) with (id <$> l). rewrite list_fmap_delete.
    intros Hin. apply Hnot. eapply list_elem_of_delete_inv. exact Hin.
Qed.

Lemma courses_run_retired (cs : list Call) (this : CoursesService) (i : Z) :
  i ∉ ids this -> i < nextId this -> i ∉ ids (run cs this).
Proof.
  revert this. induction cs as [| c cs IH]; intros this Hnot Hlt; simpl; [exact Hnot |].
  apply IH; [apply courses_exec_retired; assumption |].
  pose proof (courses_exec_nextId_mono c this). lia.
Qed.

End CoursesStore.

Lemma users_create_readback :
  forall (this s : Users.UsersService) (d : Users.CreateUserDto.t) (t1 t2 : Z)
         (created : Users.UserResponseDto),
    UsersRun.reachable this ->
    Users.create d t1 t2 this = (inr created, s) ->
    Users.findOne (Users.id created) s = (inr created, s)
    /\ (forall j, j <> Users.id created ->
          fst (Users.findOne j s) = fst (Users.findOne j this)).
Proof.
  intros this s d t1 t2 created Hreach Hc.
  destruct (reachable_well_formed this Hreach) as [_ Hlt].
  unfold Users.create, bind, get, put, ret, throw in Hc.
  destruct (Users.findByEmail this _); [discriminate |].
  injection Hc as Hu Hs. rewrite Hu in Hs. subst s.
  assert (Hid : Users.id created = Users.nextId this) by (subst created; reflexivity).
  rewrite !findOne_found. simpl. unfold Users.find_by_id. split.
  - rewrite (keyed_find_append_new Users.id (Users.users this) created
               (Users.id created)); [reflexivity | | reflexivity].
    rewrite Hid. exact Hlt.
  - intros j Hj. rewrite !findOne_found. simpl. unfold Users.find_by_id.
    apply (keyed_find_append_other Users.id). congruence.
Qed.


Lemma courses_create_readback :
  forall (this s : Courses.CoursesService) (d : Courses.CreateCourseDto.t) (t1 t2 : Z)
         (created : Courses.CourseResponseDto),
    CoursesRun.reachable this ->
    Courses.create d t1 t2 this = (inr created, s) ->
    Courses.findOne (Courses.id created) s = (inr created, s)
    /\ (forall j, j <> Courses.id created ->
          fst (Courses.findOne j s) = fst (Courses.findOne j this)).
Proof.
  intros this s d t1 t2 created Hreach Hc.
  destruct (courses_reachable_well_formed this Hreach) as [_ Hlt].
  rewrite courses_create_result in Hc.
  injection Hc as Hu Hs. rewrite Hu in Hs. subst s.
  assert (Hid : Courses.id created = Courses.nextId this) by (subst created; reflexivity).
  rewrite !courses_findOne_found. simpl. unfold Courses.find_by_id. split.
  - rewrite (keyed_find_append_new Courses.id (Courses.courses this) created
               (Courses.id created)); [reflexivity | | reflexivity].
    rewrite Hid. exact Hlt.
  - intros j Hj. rewrite !courses_findOne_found. simpl. unfold Courses.find_by_id.
    apply (keyed_find_append_other Courses.id). congruence.
Qed.

(** X5: a record just created can be read back: from a reachable state of
    either service, after a successful [create], [findOne] on the returned
    identifier returns the very record [create] returned, and [findOne] on
    any other identifier answers as it did before the call. *)
Theorem create_then_findOne :
  (forall (this s : Users.UsersService) (d : Users.CreateUserDto.t) (t1 t2 : Z)
          (created : Users.UserResponseDto),
     UsersRun.reachable this ->
     Users.create d t1 t2 this = (inr created, s) ->
     Users.findOne (Users.id created) s = (inr created, s)
     /\ (forall j, j <> Users.id created ->
           fst (Users.findOne j s) = fst (Users.findOne j this)))
  /\
  (forall (this s : Courses.CoursesService) (d : Courses.CreateCourseDto.t) (t1 t2 : Z)
          (created : Courses.CourseResponseDto),
     CoursesRun.reachable this ->
     Courses.create d t1 t2 this = (inr created, s) ->
     Courses.findOne (Courses.id created) s = (inr created, s)
     /\ (forall j, j <> Courses.id created ->
           fst (Courses.findOne j s) = fst (Courses.findOne j this))).
Proof.
  split; [exact users_create_readback | exact courses_create_readback].
Qed.

Lemma create_then_findOne_witness :
  exists created s,
    Users.create (Users.CreateUserDto.mk "ann@lms.com" "SecurePass123!" "Ann" "Doe"
                                         Users.STUDENT None None) 5 6 Users.initial
    = (inr created, s)
    /\ Users.findOne (Users.id created) s = (inr created, s).
Proof.
  do 2 eexists. split; [vm_compute; reflexivity |].
  apply (proj1 create_then_findOne Users.initial _
           (Users.CreateUserDto.mk "ann@lms.com" "SecurePass123!" "Ann" "Doe"
                                   Users.STUDENT None None) 5 6 _).
  - exists []. reflexivity.
  - vm_compute. reflexivity.
Defined.

(** X7: from a reachable state a successful [remove] deletes exactly the
    record with that identifier: what is left are the other records, in
    their order, one fewer than before; the id counter stays, and [findOne]
    on any other identifier answers as before. *)
Theorem remove_deletes_exactly_one :
  (forall (this s : Users.UsersService) (i : Z),
     UsersRun.reachable this ->
     Users.remove i this = (inr tt, s) ->
     Users.users s = List.filter (fun u => negb (Users.id u =? i)) (Users.users this)
     /\ length (Users.users this) = S (length (Users.users s))
     /\ Users.nextId s = Users.nextId this
     /\ (forall j, j <> i -> fst (Users.findOne j s) = fst (Users.findOne j this)))
  /\
  (forall (this s : Courses.CoursesService) (i : Z),
     CoursesRun.reachable this ->
     Courses.remove i this = (inr tt, s) ->
     Courses.courses s
     = List.filter (fun c => negb (Courses.id c =? i)) (Courses.courses this)
     /\ length (Courses.courses this) = S (length (Courses.courses s))
     /\ Courses.nextId s = Courses.nextId this
     /\ (forall j, j <> i -> fst (Courses.findOne j s) = fst (Courses.findOne j this))).
Proof.
  split.
  - intros this s i Hreach Hrm.
    destruct (reachable_well_formed this Hreach) as [Hnd _].
    unfold Users.remove, bind, get, put, throw, Users.find_by_id in Hrm.
    destruct (list_find _ (Users.users this)) as [[idx existing] |] eqn:Hf;
      [| discriminate].
    injection Hrm as Hs. subst s. simpl.
    apply list_find_Some in Hf. destruct Hf as (Hl & Hid & _).
    split; [| split; [| split; [reflexivity |]]].
    + rewrite <- Hid. apply (keyed_delete_filter Users.id); assumption.
    + rewrite length_delete by eauto.
      pose proof (lookup_lt_Some _ _ _ Hl). lia.
    + intros j Hj. rewrite !findOne_found. simpl.
      apply (keyed_find_delete_other Users.id _ idx existing j Hl). congruence.
  - intros this s i Hreach Hrm.
    destruct (courses_reachable_well_formed this Hreach) as [Hnd _].
    unfold Courses.remove, bind, get, put, throw, Courses.find_by_id in Hrm.
    destruct (list_find _ (Courses.courses this)) as [[idx existing] |] eqn:Hf;
      [| discriminate].
    injection Hrm as Hs. subst s. simpl.
    apply list_find_Some in Hf. destruct Hf as (Hl & Hid & _).
    split; [| split; [| split; [reflexivity |]]].
    + rewrite <- Hid. apply (keyed_delete_filter Courses.id); assumption.
    + rewrite length_delete by eauto.
      pose proof (lookup_lt_Some _ _ _ Hl). lia.
    + intros j Hj. rewrite !courses_findOne_found. simpl.
      apply (keyed_find_delete_other Courses.id _ idx existing j Hl). congruence.
Qed.

Lemma remove_deletes_exactly_one_witness :
  exists s,
    Users.remove 2 Users.initial = (inr tt, s)
    /\ map Users.id (Users.users s) = [1; 3]
    /\ Users.users s
       = List.filter (fun u => negb (Users.id u =? 2)) (Users.users Users.initial).
Proof.
  eexists. split; [vm_compute; reflexivity |]. split; [reflexivity |].
  apply (proj1 remove_deletes_exactly_one Users.initial _ 2).
  - exists []. reflexivity.
  - vm_compute. reflexivity.
Defined.

(** X8: in every state the course service can reach from its seeded state
    the stored identifiers are pairwise distinct and below the id counter;
    and after a successful [remove] of an identifier, whatever calls
    follow, [findOne] on it throws [NotFoundException] and no [create]
    returns a course with that identifier. *)
Theorem courses_ids_and_deletion_finality :
  forall this : Courses.CoursesService,
    CoursesRun.reachable this ->
    NoDup (map Courses.id (Courses.courses this))
    /\ (forall c, c ∈ Courses.courses this -> Courses.id c < Courses.nextId this)
    /\ (forall (this' : Courses.CoursesService) (i : Z),
          Courses.remove i this = (inr tt, this') ->
          forall cs : list CoursesRun.Call,
            Courses.findOne i (CoursesRun.run cs this')
            = (inl NotFoundException, CoursesRun.run cs this')
            /\ (forall (d : Courses.CreateCourseDto.t) (t1 t2 : Z)
                       (created : Courses.CourseResponseDto) (s : Courses.CoursesService),
                  Courses.create d t1 t2 (CoursesRun.run cs this') = (inr created, s) ->
                  Courses.id created <> i)).
Proof.
  intros this Hreach.
  destruct (courses_reachable_well_formed this Hreach) as [Hnd Hlt].
  split; [exact Hnd |]. split.
  { intros c Hc. rewrite Forall_forall in Hlt. apply Hlt.
    apply list_elem_of_fmap. eauto. }
  intros this' i Hrm cs.
  unfold Courses.remove, bind, get, put, throw, Courses.find_by_id in Hrm.
  destruct (list_find _ (Courses.courses this)) as [[idx existing] |] eqn:Hf;
    [| discriminate].
  injection Hrm as Hs. apply list_find_Some in Hf. destruct Hf as (Hl & Hid & _).
  assert (Hidx : CoursesRun.ids this !! idx = Some i).
  { unfold CoursesRun.ids. change (map Courses.id ?l) with (Courses.id <$> l).
    rewrite list_lookup_fmap, Hl. simpl. congruence. }
  assert (Hnot : i ∉ CoursesRun.ids this').
  { subst this'. unfold CoursesRun.ids. simpl.
    change (map Courses.id ?l) with (Courses.id <$> l). rewrite list_fmap_delete.
    apply NoDup_delete_gone; assumption. }
  assert (Hbelow : i < Courses.nextId this').
  { subst this'. simpl. rewrite Forall_forall in Hlt. apply Hlt.
    eapply list_elem_of_lookup_2. exact Hidx. }
  pose proof (courses_run_retired cs this' i Hnot Hbelow) as Hgone.
  pose proof (courses_run_nextId_mono cs this') as Hmono.
  split.
  - rewrite courses_findOne_found.
    rewrite courses_find_absent; [reflexivity |].
    intros c Hc Heq. apply Hgone. unfold CoursesRun.ids.
    apply list_elem_of_fmap. eauto.
  - intros d t1 t2 created s Hc. rewrite courses_create_result in Hc.
    injection Hc as Hc _. subst created. simpl. lia.
Qed.

Lemma courses_ids_and_deletion_finality_witness :
  NoDup (map Courses.id
           (Courses.courses
              (CoursesRun.run
                 [CoursesRun.CallRemove 3;
                  CoursesRun.CallCreate
                    (Courses.CreateCourseDto.mk "X" "about X" Courses.BEGINNER 5
                                                (1000 # 100) None None) 5 5]
                 Courses.initial))).
Proof.
  apply (courses_ids_and_deletion_finality _ ltac:(eexists; reflexivity)).
Defined.

(** X9: a created course is a draft until it is published by an update: in
    a reachable state, right after [create] the new course is not among the
    courses the filter [status = published] keeps; after
    [update(id, {status: published})] it is, with the identifier and the
    content [create] gave it, and [findOne] returns it as published. *)
Theorem course_publish_lists_it :
  forall (this s1 s2 : Courses.CoursesService) (d : Courses.CreateCourseDto.t)
         (t1 t2 now : Z) (created updated : Courses.CourseResponseDto),
    CoursesRun.reachable this ->
    Courses.create d t1 t2 this = (inr created, s1) ->
    Courses.update (Courses.id created)
      (Courses.UpdateCourseDto.mk None None None None None (Some Courses.PUBLISHED) None)
      now s1
    = (inr updated, s2) ->
    (created ∉ Courses.apply_filters s1
                 (Courses.QueryCourseDto.mk None None (Some Courses.PUBLISHED)
                                            None None None None None))
    /\ (updated ∈ Courses.apply_filters s2
                    (Courses.QueryCourseDto.mk None None (Some Courses.PUBLISHED)
                                               None None None None None))
    /\ Courses.findOne (Courses.id created) s2 = (inr updated, s2)
    /\ Courses.status updated = Courses.PUBLISHED
    /\ Courses.id updated = Courses.id created
    /\ Courses.title updated = Courses.CreateCourseDto.title d
    /\ Courses.price updated = Courses.CreateCourseDto.price d
    /\ Courses.createdAt updated = t1
    /\ Courses.updatedAt updated = now.
Proof.
  intros this s1 s2 d t1 t2 now created updated Hreach Hc Hu.
  destruct (courses_reachable_well_formed this Hreach) as [_ Hlt].
  destruct (courses_update_readback s1 s2 _ _ _ _ Hu) as [Hread _].
  rewrite courses_create_result in Hc. injection Hc as Hcreated Hs1.
  rewrite Hcreated in Hs1.
  assert (Hfind : Courses.find_by_id (Courses.id created) (Courses.courses s1)
                  = Some (length (Courses.courses this), created)).
  { subst s1. simpl. unfold Courses.find_by_id.
    apply (keyed_find_append_new Courses.id); [| reflexivity].
    subst created. simpl. exact Hlt. }
  unfold Courses.update, bind, get, put, ret, throw in Hu. rewrite Hfind in Hu.
  injection Hu as Hupdated Hs2. rewrite Hupdated in Hs2.
  split; [| split; [| split; [exact Hread |]]].
  - intros Hin. simpl in Hin. apply list_elem_of_In, filter_In in Hin.
    destruct Hin as [_ Hst]. subst created. discriminate.
  - simpl. apply list_elem_of_In, filter_In. split.
    + apply list_elem_of_In. subst s2. simpl.
      eapply list_elem_of_lookup_2. apply list_lookup_insert_eq.
      subst s1. simpl. rewrite length_app. simpl. lia.
    + subst updated. reflexivity.
  - subst updated created. simpl. repeat split; reflexivity.
Qed.

Lemma course_publish_lists_it_witness :
  exists created s1 updated s2,
    Courses.create (Courses.CreateCourseDto.mk "X" "about X" Courses.BEGINNER 5
                                               (1000 # 100) None None) 5 5 Courses.initial
    = (inr created, s1)
    /\ Courses.update (Courses.id created)
         (Courses.UpdateCourseDto.mk None None None None None (Some Courses.PUBLISHED) None)
         8 s1
       = (inr updated, s2)
    /\ Courses.findOne (Courses.id created) s2 = (inr updated, s2)
    /\ Courses.status updated = Courses.PUBLISHED.
Proof.
  do 4 eexists. split; [vm_compute; reflexivity |].
  split; [vm_compute; reflexivity |].
  destruct (course_publish_lists_it Courses.initial _ _
              (Courses.CreateCourseDto.mk "X" "about X" Courses.BEGINNER 5
                                          (1000 # 100) None None) 5 5 8 _ _
              ltac:(exists []; reflexivity)
              ltac:(vm_compute; reflexivity) ltac:(vm_compute; reflexivity))
    as (_ & _ & Hread & Hst & _).
  split; [exact Hread | exact Hst].
Defined.

(** ** The search filter *)

Lemma prefix_iff (sub s : string) :
  String.prefix sub s = true <-> exists post, s = sub ++ post.
Proof.
  revert s. induction sub as [| c sub IH]; intros s.
  - split; [intros _; exists s; reflexivity | intros _; destruct s; reflexivity].
  - destruct s as [| d s]; simpl;
      [split; [discriminate | intros [post H]; discriminate] |].
    destruct (Ascii.ascii_dec c d) as [-> | Hne].
    + rewrite IH. split; intros [post H]; exists post; [rewrite H; reflexivity |].
      change (String d s = String d (String.append sub post)) in H. congruence.
    + split; [discriminate |]. intros [post H].
      change (String d s = String c (String.append sub post)) in H. congruence.
Qed.

Lemma includes_iff (s sub : string) :
  Js.includes s sub = true <-> exists pre post, s = pre ++ sub ++ post.
Proof.
  induction s as [| c s IH].
  - change (Js.includes "" sub) with (String.prefix sub "" || false).
    rewrite orb_false_r, prefix_iff. split.
    + intros [post H]. exists "", post. exact H.
    + intros (pre & post & H). destruct pre; [eauto | discriminate].
  - change (Js.includes (String c s) sub)
      with (String.prefix sub (String c s) || Js.includes s sub).
    rewrite orb_true_iff, prefix_iff, IH. split.
    + intros [[post H] | (pre & post & H)].
      * exists "", post. exact H.
      * exists (String c pre), post. rewrite H. reflexivity.
    + intros (pre & post & H). destruct pre as [| d pre].
      * left. eauto.
      * right. exists pre, post.
        change (String c s = String d (String.append pre (String.append sub post))) in H.
        congruence.
Qed.

Lemma toLowerCase_truthy (s : string) :
  Js.truthy_string (Js.toLowerCase s) = Js.truthy_string s.
Proof. destruct s; reflexivity. Qed.

(** X10: on ASCII text the search filter is a case-insensitive substring
    test. For a search text and a user whose first name, last name and
    e-mail address are made of ASCII characters, the user is among those the
    search filter keeps exactly when it is stored and the lower-cased search
    text occurs as a contiguous part of its lower-cased first name, last
    name or e-mail address. Over a store of such users (of courses with
    ASCII title and description), two ASCII search texts that differ in
    letter case only give the same [findAll] result. *)
Theorem search_is_case_insensitive_substring :
  (forall (this : Users.UsersService) (s : string) (u : Users.UserResponseDto),
     ascii_only s = true ->
     user_ascii_only u = true ->
     (u ∈ Users.apply_filters this (Users.QueryUserDto.mk (Some s) None None None None)
      <-> u ∈ Users.users this
          /\ exists field pre post,
               field ∈ [Users.firstName u; Users.lastName u; Users.email u]
               /\ Js.toLowerCase field = pre ++ Js.toLowerCase s ++ post))
  /\
  (forall (this : Users.UsersService) (s s' : string)
          (r : option Users.UserRole) (st : option Users.UserStatus) (p l : option Z),
     ascii_only s = true -> ascii_only s' = true ->
     Forall (fun u => user_ascii_only u = true) (Users.users this) ->
     Js.toLowerCase s = Js.toLowerCase s' ->
     Users.findAll this (Users.QueryUserDto.mk (Some s) r st p l)
     = Users.findAll this (Users.QueryUserDto.mk (Some s') r st p l))
  /\
  (forall (this : Courses.CoursesService) (s s' : string)
          (query : Courses.QueryCourseDto.t),
     ascii_only s = true -> ascii_only s' = true ->
     Forall (fun c => course_ascii_only c = true) (Courses.courses this) ->
     Js.toLowerCase s = Js.toLowerCase s' ->
     Courses.QueryCourseDto.search query = Some s ->
     Courses.findAll this query
     = Courses.findAll this
         {| Courses.QueryCourseDto.search := Some s';
            Courses.QueryCourseDto.level := Courses.QueryCourseDto.level query;
            Courses.QueryCourseDto.status := Courses.QueryCourseDto.status query;
            Courses.QueryCourseDto.instructorId := Courses.QueryCourseDto.instructorId query;
            Courses.QueryCourseDto.minPrice := Courses.QueryCourseDto.minPrice query;
            Courses.QueryCourseDto.maxPrice := Courses.QueryCourseDto.maxPrice query;
            Courses.QueryCourseDto.page := Courses.QueryCourseDto.page query;
            Courses.QueryCourseDto.limit := Courses.QueryCourseDto.limit query |}).
Proof.
  split; [| split].
  - intros this s u _ _. rewrite users_apply_filters.
    rewrite list_elem_of_In, filter_In, <- list_elem_of_In.
    unfold Spec.user_passes. simpl. rewrite !andb_true_r.
    unfold Users.search_matches.
    rewrite !orb_true_iff, !includes_iff.
    split; intros [Hin Hm]; (split; [exact Hin |]).
    + destruct Hm as [[(pre & post & H) | (pre & post & H)] | (pre & post & H)];
        eexists _, pre, post; (split; [| exact H]); set_solver.
    + destruct Hm as (field & pre & post & Hf & H).
      apply elem_of_cons in Hf as [-> | Hf]; [left; left; eauto |].
      apply elem_of_cons in Hf as [-> | Hf]; [left; right; eauto |].
      apply list_elem_of_singleton in Hf. subst field. right. eauto.
  - intros this s s' r st p l _ _ _ Hs. unfold Users.findAll, Users.apply_filters. simpl.
    rewrite <- (toLowerCase_truthy s), <- (toLowerCase_truthy s'), Hs. reflexivity.
  - intros this s s' query _ _ _ Hs Hq.
    unfold Courses.findAll, Courses.apply_filters. simpl.
    rewrite Hq.
    rewrite <- (toLowerCase_truthy s), <- (toLowerCase_truthy s'), Hs. reflexivity.
Qed.

Lemma search_is_case_insensitive_substring_witness :
  map Users.id
      (data (Users.findAll Users.initial
               (Users.QueryUserDto.mk (Some "SMITH") None None None None)))
  = [2]
  /\ Users.findAll Users.initial (Users.QueryUserDto.mk (Some "SMITH") None None None None)
     = Users.findAll Users.initial (Users.QueryUserDto.mk (Some "Smith") None None None None).
Proof.
  split; [reflexivity |].
  apply (proj1 (proj2 search_is_case_insensitive_substring) Users.initial
           "SMITH" "Smith" None None None None).
  - reflexivity.
  - reflexivity.
  - repeat constructor.
  - reflexivity.
Defined.

(** ** Filters of the course listing *)

Lemma filter_none {A : Type} (f : A -> bool) (l : list A) :
  (forall x, f x = false) -> List.filter f l = [].
Proof.
  intros Hf. induction l as [| x l IH]; simpl; [reflexivity |].
  rewrite Hf. exact IH.
Qed.

(** X11: a price range whose [maxPrice] is below its [minPrice] is not an
    error: whatever the store and the other filters, [findAll] answers with
    an empty page and a [total] of 0. *)
Theorem courses_inverted_price_range_is_empty :
  forall (this : Courses.CoursesService) (query : Courses.QueryCourseDto.t) (lo hi : Q),
    Courses.QueryCourseDto.minPrice query = Some lo ->
    Courses.QueryCourseDto.maxPrice query = Some hi ->
    (hi < lo)%Q ->
    data (Courses.findAll this query) = []
    /\ total (Courses.findAll this query) = 0.
Proof.
  intros this query lo hi Hlo Hhi Hlt.
  assert (Hnone : Courses.apply_filters this query = []).
  { rewrite courses_apply_filters_kept. apply filter_none. intros c.
    unfold course_kept. rewrite Hlo, Hhi. simpl.
    unfold Courses.minPrice_matches, Courses.maxPrice_matches.
    destruct (Qle_bool lo (Courses.price c)) eqn:H1;
      destruct (Qle_bool (Courses.price c) hi) eqn:H2;
      rewrite ?andb_false_r, ?andb_false_l; try reflexivity.
    apply Qle_bool_iff in H1, H2. exfalso.
    apply (Qlt_not_le _ _ Hlt). eapply Qle_trans; eassumption. }
  unfold Courses.findAll, paginate. rewrite Hnone. simpl.
  split; [| reflexivity]. unfold Js.slice. rewrite drop_nil. apply take_nil.
Qed.

Lemma courses_inverted_price_range_is_empty_witness :
  data (Courses.findAll Courses.initial
          (Courses.QueryCourseDto.mk None None None None (Some (100 # 1)) (Some (80 # 1))
                                     None None))
  = []
  /\ total (Courses.findAll Courses.initial
              (Courses.QueryCourseDto.mk None None None None (Some (100 # 1)) (Some (80 # 1))
                                         None None))
     = 0.
Proof.
  apply (courses_inverted_price_range_is_empty Courses.initial
           (Courses.QueryCourseDto.mk None None None None (Some (100 # 1)) (Some (80 # 1))
                                      None None)
           (100 # 1) (80 # 1) eq_refl eq_refl).
  reflexivity.
Defined.

(** X12: every course on a page of [findAll] is a stored course that has
    the queried level and status, the queried instructor when the queried
    [instructorId] is not 0, and a price within the queried bounds, each of
    those for the filters the query has. *)
Theorem courses_findAll_only_matching :
  forall (this : Courses.CoursesService) (query : Courses.QueryCourseDto.t)
         (c : Courses.CourseResponseDto),
    c ∈ data (Courses.findAll this query) ->
    c ∈ Courses.courses this
    /\ (forall l, Courses.QueryCourseDto.level query = Some l -> Courses.level c = l)
    /\ (forall s, Courses.QueryCourseDto.status query = Some s -> Courses.status c = s)
    /\ (forall i, Courses.QueryCourseDto.instructorId query = Some i -> i <> 0 ->
          Courses.Instructor.id (Courses.instructor c) = i)
    /\ (forall p, Courses.QueryCourseDto.minPrice query = Some p ->
          (p <= Courses.price c)%Q)
    /\ (forall p, Courses.QueryCourseDto.maxPrice query = Some p ->
          (Courses.price c <= p)%Q)
    /\ (forall s, Courses.QueryCourseDto.search query = Some s ->
          Courses.search_matches (Js.toLowerCase s) c = true).
Proof.
  intros this query c Hin.
  destruct (courses_findAll_conjunctive this query c Hin) as [Hstored Hkept].
  split; [exact Hstored |].
  unfold course_kept in Hkept. rewrite !andb_true_iff in Hkept.
  destruct Hkept as [[[[[Hs Hl] Hst] Hi] Hmin] Hmax].
  repeat split.
  - intros l Hq. rewrite Hq in Hl. simpl in Hl.
    unfold Courses.level_matches in Hl. apply bool_decide_eq_true in Hl. exact Hl.
  - intros s Hq. rewrite Hq in Hst. simpl in Hst.
    unfold Courses.status_matches in Hst. apply bool_decide_eq_true in Hst. exact Hst.
  - intros i Hq Hnz. rewrite Hq in Hi.
    destruct (Z.eqb_spec i 0) as [? | _]; [contradiction |].
    unfold Courses.instructor_matches in Hi. apply Z.eqb_eq in Hi. exact Hi.
  - intros p Hq. rewrite Hq in Hmin. simpl in Hmin.
    apply Qle_bool_iff. exact Hmin.
  - intros p Hq. rewrite Hq in Hmax. simpl in Hmax.
    apply Qle_bool_iff. exact Hmax.
  - intros s Hq. rewrite Hq in Hs. exact Hs.
Qed.

Lemma courses_findAll_only_matching_witness :
  exists c,
    data (Courses.findAll Courses.initial
            (Courses.QueryCourseDto.mk None (Some Courses.BEGINNER) None None None
                                       (Some (90 # 1)) None None)) !! 0%nat = Some c
    /\ (c ∈ Courses.courses Courses.initial)
    /\ Courses.level c = Courses.BEGINNER
    /\ (Courses.price c <= 90 # 1)%Q.
Proof.
  eexists. split; [reflexivity |].
  destruct (courses_findAll_only_matching Courses.initial
              (Courses.QueryCourseDto.mk None (Some Courses.BEGINNER) None None None
                                         (Some (90 # 1)) None None)
              _ ltac:(apply list_elem_of_lookup; exists 0%nat; reflexivity))
    as (Hin & Hl & _ & _ & _ & Hmax & _).
  split; [exact Hin |]. split; [apply Hl | apply Hmax]; reflexivity.
Defined.

(** X13: every user on a page of [findAll] is a stored user that has the
    queried role and status and matches the queried search text, each of
    those for the filters the query has. *)
Theorem users_findAll_only_matching :
  forall (this : Users.UsersService) (query : Users.QueryUserDto.t)
         (u : Users.UserResponseDto),
    u ∈ data (Users.findAll this query) ->
    u ∈ Users.users this
    /\ (forall r, Users.QueryUserDto.role query = Some r -> Users.role u = r)
    /\ (forall s, Users.QueryUserDto.status query = Some s -> Users.status u = s)
    /\ (forall s, Users.QueryUserDto.search query = Some s ->
          Users.search_matches (Js.toLowerCase s) u = true).
Proof.
  intros this query u Hin.
  destruct (users_findAll_conjunctive this query u Hin) as [Hstored Hpass].
  split; [exact Hstored |].
  unfold Spec.user_passes in Hpass. rewrite !andb_true_iff in Hpass.
  destruct Hpass as [[Hs Hr] Hst].
  repeat split.
  - intros r Hq. rewrite Hq in Hr.
    unfold Users.role_matches in Hr. apply bool_decide_eq_true in Hr. exact Hr.
  - intros s Hq. rewrite Hq in Hst.
    unfold Users.status_matches in Hst. apply bool_decide_eq_true in Hst. exact Hst.
  - intros s Hq. rewrite Hq in Hs. exact Hs.
Qed.

Lemma users_findAll_only_matching_witness :
  exists u,
    data (Users.findAll Users.initial
            (Users.QueryUserDto.mk (Some "jane") (Some Users.INSTRUCTOR) None None None))
      !! 0%nat = Some u
    /\ (u ∈ Users.users Users.initial)
    /\ Users.role u = Users.INSTRUCTOR.
Proof.
  eexists. split; [reflexivity |].
  destruct (users_findAll_only_matching Users.initial
              (Users.QueryUserDto.mk (Some "jane") (Some Users.INSTRUCTOR) None None None)
              _ ltac:(apply list_elem_of_lookup; exists 0%nat; reflexivity))
    as (Hin & Hr & _).
  split; [exact Hin | apply Hr; reflexivity].
Defined.

(** X14: adding filters to a query never adds a result: if a second query
    has every filter of a first one, with the same values, and possibly
    more, then in both services its filtered sequence is a sub-sequence of
    the first one's and its [total] is no greater. *)
Theorem more_filters_fewer_results :
  (forall (this : Users.UsersService) (query query' : Users.QueryUserDto.t),
     Spec.user_query_extends query query' ->
     Users.apply_filters this query' `sublist_of` Users.apply_filters this query
     /\ total (Users.findAll this query') <= total (Users.findAll this query))
  /\
  (forall (this : Courses.CoursesService) (query query' : Courses.QueryCourseDto.t),
     Spec.course_query_extends query query' ->
     Courses.apply_filters this query' `sublist_of` Courses.apply_filters this query
     /\ total (Courses.findAll this query') <= total (Courses.findAll this query)).
Proof.
  split.
  - intros this query query' Hext.
    pose proof (users_more_filters_fewer_results this query query' Hext) as Hsub.
    split; [exact Hsub |]. unfold Users.findAll, paginate. simpl.
    apply inj_le, sublist_length, Hsub.
  - intros this query query' Hext.
    pose proof (courses_more_filters_fewer_results this query query' Hext) as Hsub.
    split; [exact Hsub |]. unfold Courses.findAll, paginate. simpl.
    apply inj_le, sublist_length, Hsub.
Qed.

Lemma more_filters_fewer_results_witness :
  total (Users.findAll Users.initial
           (Users.QueryUserDto.mk (Some "lms") (Some Users.ADMIN) None None None))
  <= total (Users.findAll Users.initial
              (Users.QueryUserDto.mk (Some "lms") None None None None)).
Proof.
  apply (proj1 more_filters_fewer_results Users.initial
           (Users.QueryUserDto.mk (Some "lms") None None None None)
           (Users.QueryUserDto.mk (Some "lms") (Some Users.ADMIN) None None None)).
  repeat split; [right | left | left]; reflexivity.
Defined.

(** ** How updates compose *)

(** X15: updates of two different identifiers do not interfere: the record
    and the exception the second one returns are those it would return
    without the first, and the store after both is the same in either
    order, in both services. *)
Theorem updates_of_different_ids_commute :
  (forall (this : Users.UsersService) (i j : Z) (p q : Users.UpdateUserDto.t)
          (t1 t2 : Z),
     i <> j ->
     fst (Users.update j q t2 (snd (Users.update i p t1 this)))
     = fst (Users.update j q t2 this)
     /\ snd (Users.update j q t2 (snd (Users.update i p t1 this)))
        = snd (Users.update i p t1 (snd (Users.update j q t2 this))))
  /\
  (forall (this : Courses.CoursesService) (i j : Z) (p q : Courses.UpdateCourseDto.t)
          (t1 t2 : Z),
     i <> j ->
     fst (Courses.update j q t2 (snd (Courses.update i p t1 this)))
     = fst (Courses.update j q t2 this)
     /\ snd (Courses.update j q t2 (snd (Courses.update i p t1 this)))
        = snd (Courses.update i p t1 (snd (Courses.update j q t2 this)))).
Proof.
  split.
  - intros this i j p q t1 t2 Hij.
    unfold Users.update, bind, get, put, ret, throw, Users.find_by_id. simpl.
    destruct (list_find (fun u => Users.id u = i) (Users.users this))
      as [[a x] |] eqn:Hi;
      destruct (list_find (fun u => Users.id u = j) (Users.users this))
      as [[b y] |] eqn:Hj; simpl.
    + pose proof Hi as Hi'. pose proof Hj as Hj'.
      apply list_find_Some in Hi', Hj'.
      destruct Hi' as (Hla & Hx & _). destruct Hj' as (Hlb & Hy & _).
      rewrite (keyed_find_replace_other Users.id _ a x _ j Hla) by (simpl; congruence).
      rewrite (keyed_find_replace_other Users.id _ b y _ i Hlb) by (simpl; congruence).
      rewrite Hi, Hj. simpl. split; [reflexivity |].
      f_equal. apply list_insert_insert_ne. congruence.
    + pose proof Hi as Hi'. apply list_find_Some in Hi'. destruct Hi' as (Hla & Hx & _).
      rewrite (keyed_find_replace_other Users.id _ a x _ j Hla) by (simpl; congruence).
      rewrite Hi, Hj. simpl. split; reflexivity.
    + pose proof Hj as Hj'. apply list_find_Some in Hj'. destruct Hj' as (Hlb & Hy & _).
      rewrite (keyed_find_replace_other Users.id _ b y _ i Hlb) by (simpl; congruence).
      rewrite Hi, Hj. simpl. split; reflexivity.
    + rewrite Hi, Hj. simpl. split; reflexivity.
  - intros this i j p q t1 t2 Hij.
    unfold Courses.update, bind, get, put, ret, throw, Courses.find_by_id. simpl.
    destruct (list_find (fun c => Courses.id c = i) (Courses.courses this))
      as [[a x] |] eqn:Hi;
      destruct (list_find (fun c => Courses.id c = j) (Courses.courses this))
      as [[b y] |] eqn:Hj; simpl.
    + pose proof Hi as Hi'. pose proof Hj as Hj'.
      apply list_find_Some in Hi', Hj'.
      destruct Hi' as (Hla & Hx & _). destruct Hj' as (Hlb & Hy & _).
      rewrite (keyed_find_replace_other Courses.id _ a x _ j Hla) by (simpl; congruence).
      rewrite (keyed_find_replace_other Courses.id _ b y _ i Hlb) by (simpl; congruence).
      rewrite Hi, Hj. simpl. split; [reflexivity |].
      f_equal. apply list_insert_insert_ne. congruence.
    + pose proof Hi as Hi'. apply list_find_Some in Hi'. destruct Hi' as (Hla & Hx & _).
      rewrite (keyed_find_replace_other Courses.id _ a x _ j Hla) by (simpl; congruence).
      rewrite Hi, Hj. simpl. split; reflexivity.
    + pose proof Hj as Hj'. apply list_find_Some in Hj'. destruct Hj' as (Hlb & Hy & _).
      rewrite (keyed_find_replace_other Courses.id _ b y _ i Hlb) by (simpl; congruence).
      rewrite Hi, Hj. simpl. split; reflexivity.
    + rewrite Hi, Hj. simpl. split; reflexivity.
Qed.

Lemma updates_of_different_ids_commute_witness :
  snd (Users.update 3 (Users.UpdateUserDto.mk None None (Some "+3") None None) 8
         (snd (Users.update 1 (Users.UpdateUserDto.mk (Some "Root") None None None None) 7
                 Users.initial)))
  = snd (Users.update 1 (Users.UpdateUserDto.mk (Some "Root") None None None None) 7
           (snd (Users.update 3 (Users.UpdateUserDto.mk None None (Some "+3") None None) 8
                   Users.initial))).
Proof.
  apply (proj1 updates_of_different_ids_commute Users.initial 1 3
           (Users.UpdateUserDto.mk (Some "Root") None None None None)
           (Users.UpdateUserDto.mk None None (Some "+3") None None) 7 8).
  discriminate.
Defined.

(** X16: repeating an update changes nothing more: after a successful
    [update], the same patch applied again with the same clock reading
    returns the same record and leaves the store as the first call left it;
    for users this needs a patch without an empty-string name part, for
    courses nothing. *)
Theorem update_is_idempotent :
  (forall (this s : Users.UsersService) (i : Z) (p : Users.UpdateUserDto.t) (now : Z)
          (updated : Users.UserResponseDto),
     Users.UpdateUserDto.firstName p <> Some "" ->
     Users.UpdateUserDto.lastName p <> Some "" ->
     Users.update i p now this = (inr updated, s) ->
     Users.update i p now s = (inr updated, s))
  /\
  (forall (this s : Courses.CoursesService) (i : Z) (p : Courses.UpdateCourseDto.t)
          (now : Z) (updated : Courses.CourseResponseDto),
     Courses.update i p now this = (inr updated, s) ->
     Courses.update i p now s = (inr updated, s)).
Proof.
  split.
  - intros this s i p now updated Hf Hl Hu.
    unfold Users.update, bind, get, put, ret, throw in Hu.
    destruct (Users.find_by_id i (Users.users this)) as [[idx existing] |] eqn:Hfind;
      [| discriminate].
    injection Hu as Hupd Hs. rewrite Hupd in Hs.
    assert (Hagain : Users.find_by_id i (Users.users s) = Some (idx, updated)).
    { subst s. simpl. unfold Users.find_by_id in *.
      apply (keyed_find_replace Users.id _ idx existing updated i Hfind).
      apply list_find_Some in Hfind. destruct Hfind as (_ & Hid & _).
      subst updated. exact Hid. }
    unfold Users.update, bind, get, put, ret, throw. rewrite Hagain.
    assert (Hsame :
      {| Users.id := Users.id updated;
         Users.email := Users.email updated;
         Users.firstName :=
           Users.spread (Users.firstName updated) (Users.UpdateUserDto.firstName p);
         Users.lastName :=
           Users.spread (Users.lastName updated) (Users.UpdateUserDto.lastName p);
         Users.fullName :=
           if Users.truthy_opt (Users.UpdateUserDto.firstName p)
              || Users.truthy_opt (Users.UpdateUserDto.lastName p)
           then Js.or_string (Users.UpdateUserDto.firstName p) (Users.firstName updated)
                ++ " "
                ++ Js.or_string (Users.UpdateUserDto.lastName p) (Users.lastName updated)
           else Users.fullName updated;
         Users.role := Users.role updated;
         Users.status := Users.spread (Users.status updated) (Users.UpdateUserDto.status p);
         Users.phone := match Users.UpdateUserDto.phone p with
                        | Some v => Some v
                        | None => Users.phone updated
                        end;
         Users.bio := match Users.UpdateUserDto.bio p with
                      | Some v => Some v
                      | None => Users.bio updated
                      end;
         Users.createdAt := Users.createdAt updated;
         Users.updatedAt := now |} = updated).
    { clear Hs Hagain. subst updated. simpl.
      unfold Users.truthy_opt, Js.or_string, Users.spread.
      destruct p as [[f |] [l |] [ph |] [b |] [st |]]; simpl in *;
        try rewrite (truthy_string_true f) by congruence;
        try rewrite (truthy_string_true l) by congruence;
        reflexivity. }
    rewrite Hsame. subst s. simpl. rewrite list_insert_insert_eq. reflexivity.
  - intros this s i p now updated Hu.
    unfold Courses.update, bind, get, put, ret, throw in Hu.
    destruct (Courses.find_by_id i (Courses.courses this)) as [[idx existing] |] eqn:Hfind;
      [| discriminate].
    injection Hu as Hupd Hs. rewrite Hupd in Hs.
    assert (Hagain : Courses.find_by_id i (Courses.courses s) = Some (idx, updated)).
    { subst s. simpl. unfold Courses.find_by_id in *.
      apply (keyed_find_replace Courses.id _ idx existing updated i Hfind).
      apply list_find_Some in Hfind. destruct Hfind as (_ & Hid & _).
      subst updated. exact Hid. }
    unfold Courses.update, bind, get, put, ret, throw. rewrite Hagain.
    assert (Hsame :
      {| Courses.id := Courses.id updated;
         Courses.title :=
           Courses.spread (Courses.title updated) (Courses.UpdateCourseDto.title p);
         Courses.description :=
           Courses.spread (Courses.description updated)
                          (Courses.UpdateCourseDto.description p);
         Courses.level :=
           Courses.spread (Courses.level updated) (Courses.UpdateCourseDto.level p);
         Courses.duration :=
           Courses.spread (Courses.duration updated) (Courses.UpdateCourseDto.duration p);
         Courses.price :=
           Courses.spread (Courses.price updated) (Courses.UpdateCourseDto.price p);
         Courses.status :=
           Courses.spread (Courses.status updated) (Courses.UpdateCourseDto.status p);
         Courses.instructor := Courses.instructor updated;
         Courses.tags :=
           Courses.spread (Courses.tags updated) (Courses.UpdateCourseDto.tags p);
         Courses.rating := Courses.rating updated;
         Courses.enrolledStudents := Courses.enrolledStudents updated;
         Courses.createdAt := Courses.createdAt updated;
         Courses.updatedAt := now |} = updated).
    { clear Hs Hagain. subst updated. simpl. unfold Courses.spread.
      destruct p as [[t |] [d |] [l |] [du |] [pr |] [st |] [tg |]]; reflexivity. }
    rewrite Hsame. subst s. simpl. rewrite list_insert_insert_eq. reflexivity.
Qed.

Lemma update_is_idempotent_witness :
  exists updated s,
    Users.update 3 (Users.UpdateUserDto.mk (Some "Robert") None None (Some "hi") None) 7
                 Users.initial
    = (inr updated, s)
    /\ Users.update 3 (Users.UpdateUserDto.mk (Some "Robert") None None (Some "hi") None) 7 s
       = (inr updated, s).
Proof.
  do 2 eexists. split; [vm_compute; reflexivity |].
  apply (proj1 update_is_idempotent Users.initial _ 3
           (Users.UpdateUserDto.mk (Some "Robert") None None (Some "hi") None) 7 _
           ltac:(discriminate) ltac:(discriminate)).
  vm_compute. reflexivity.
Defined.

(** ** Creating and removing *)

Lemma delete_last_appended {A : Type} (l : list A) (x : A) :
  delete (length l) (l ++ [x])%list = l.
Proof. induction l as [| a l IH]; simpl; [| rewrite IH]; reflexivity. Qed.

(** X17: removing the record just created restores the stored records but
    not the id counter: from a reachable state of either service, [create]
    followed by [remove] of the returned identifier succeeds and leaves the
    records exactly as they were before, with the counter one higher, so
    the identifier is spent. *)
Theorem create_then_remove :
  (forall (this s : Users.UsersService) (d : Users.CreateUserDto.t) (t1 t2 : Z)
          (created : Users.UserResponseDto),
     UsersRun.reachable this ->
     Users.create d t1 t2 this = (inr created, s) ->
     Users.remove (Users.id created) s
     = (inr tt, {| Users.users := Users.users this;
                   Users.nextId := Users.nextId this + 1 |}))
  /\
  (forall (this s : Courses.CoursesService) (d : Courses.CreateCourseDto.t) (t1 t2 : Z)
          (created : Courses.CourseResponseDto),
     CoursesRun.reachable this ->
     Courses.create d t1 t2 this = (inr created, s) ->
     Courses.remove (Courses.id created) s
     = (inr tt, {| Courses.courses := Courses.courses this;
                   Courses.nextId := Courses.nextId this + 1 |})).
Proof.
  split.
  - intros this s d t1 t2 created Hreach Hc.
    destruct (reachable_well_formed this Hreach) as [_ Hlt].
    unfold Users.create, bind, get, put, ret, throw in Hc.
    destruct (Users.findByEmail this _); [discriminate |].
    injection Hc as Hu Hs. rewrite Hu in Hs. subst s.
    assert (Hid : Users.id created = Users.nextId this) by (subst created; reflexivity).
    unfold Users.remove, bind, get, put, throw, Users.find_by_id. simpl.
    rewrite (keyed_find_append_new Users.id (Users.users this) created
               (Users.id created)); [| rewrite Hid; exact Hlt | reflexivity].
    rewrite delete_last_appended. reflexivity.
  - intros this s d t1 t2 created Hreach Hc.
    destruct (courses_reachable_well_formed this Hreach) as [_ Hlt].
    rewrite courses_create_result in Hc.
    injection Hc as Hu Hs. rewrite Hu in Hs. subst s.
    assert (Hid : Courses.id created = Courses.nextId this) by (subst created; reflexivity).
    unfold Courses.remove, bind, get, put, throw, Courses.find_by_id. simpl.
    rewrite (keyed_find_append_new Courses.id (Courses.courses this) created
               (Courses.id created)); [| rewrite Hid; exact Hlt | reflexivity].
    rewrite delete_last_appended. reflexivity.
Qed.

Lemma create_then_remove_witness :
  exists created s,
    Courses.create (Courses.CreateCourseDto.mk "X" "about X" Courses.BEGINNER 5
                                               (1000 # 100) None None) 5 5 Courses.initial
    = (inr created, s)
    /\ Courses.remove (Courses.id created) s
       = (inr tt, {| Courses.courses := Courses.courses Courses.initial;
                     Courses.nextId := 5 |}).
Proof.
  do 2 eexists. split; [vm_compute; reflexivity |].
  apply (proj2 create_then_remove Courses.initial _
           (Courses.CreateCourseDto.mk "X" "about X" Courses.BEGINNER 5
                                       (1000 # 100) None None) 5 5 _).
  - exists []. reflexivity.
  - vm_compute. reflexivity.
Defined.

(** ** The order of the stored records *)

Lemma increasing_append_new (l : list Z) (n : Z) :
  increasing l -> Forall (fun i => i < n) l -> increasing (l ++ [n]).
Proof.
  intros Hinc Hlt a b x y Hab Ha Hb.
  assert (Hblen : (b < length (l ++ [n]))%nat) by (eapply lookup_lt_Some; exact Hb).
  rewrite length_app in Hblen. simpl in Hblen.
  rewrite lookup_app_l in Ha by lia.
  destruct (decide (b = length l)) as [-> | Hne].
  - rewrite lookup_app_r in Hb by lia. rewrite Nat.sub_diag in Hb.
    injection Hb as <-. rewrite Forall_forall in Hlt. apply Hlt.
    eapply list_elem_of_lookup_2. exact Ha.
  - rewrite lookup_app_l in Hb by lia. exact (Hinc a b x y Hab Ha Hb).
Qed.

Lemma increasing_delete (l : list Z) (idx : nat) :
  increasing l -> increasing (delete idx l).
Proof.
  intros Hinc a b x y Hab Ha Hb.
  assert (Hshift : forall k z, delete idx l !! k = Some z ->
            l !! (if decide (k < idx)%nat then k else S k) = Some z).
  { intros k z Hk. destruct (decide (k < idx)%nat) as [Hlt | Hge].
    - rewrite list_lookup_delete_lt in Hk by exact Hlt. exact Hk.
    - rewrite list_lookup_delete_ge in Hk by lia. exact Hk. }
  apply Hshift in Ha, Hb.
  eapply (Hinc _ _ x y); [| exact Ha | exact Hb].
  destruct (decide (a < idx)%nat), (decide (b < idx)%nat); lia.
Qed.

Lemma users_exec_increasing (c : UsersRun.Call) (this : Users.UsersService) :
  UsersRun.well_formed this ->
  increasing (UsersRun.ids this) -> increasing (UsersRun.ids (UsersRun.exec c this)).
Proof.
  intros [_ Hlt] Hinc.
  destruct c as [q | i | d t1 t2 | i p now | i]; cbn [UsersRun.exec].
  - exact Hinc.
  - rewrite findOne_state. exact Hinc.
  - destruct (create_ids d t1 t2 this) as [(-> & _) | (-> & _)]; [exact Hinc |].
    apply increasing_append_new; assumption.
  - destruct (update_ids i p now this) as [-> _]. exact Hinc.
  - destruct (remove_ids i this) as [_ [[-> _] | (idx & _ & -> & _)]]; [exact Hinc |].
    apply increasing_delete. exact Hinc.
Qed.

Lemma courses_exec_increasing (c : CoursesRun.Call) (this : Courses.CoursesService) :
  CoursesRun.well_formed this ->
  increasing (CoursesRun.ids this) ->
  increasing (CoursesRun.ids (CoursesRun.exec c this)).
Proof.
  intros [_ Hlt] Hinc. unfold CoursesRun.ids in *.
  destruct c as [q | i | d t1 t2 | i p now | i]; cbn [CoursesRun.exec].
  - exact Hinc.
  - rewrite courses_findOne_found. exact Hinc.
  - rewrite courses_create_result. simpl. rewrite map_app. simpl.
    apply increasing_append_new; assumption.
  - unfold Courses.update, bind, get, put, ret, throw, Courses.find_by_id.
    destruct (list_find _ (Courses.courses this)) as [[idx existing] |] eqn:Hf; simpl;
      [| exact Hinc].
    apply list_find_Some in Hf. destruct Hf as (Hl & _ & _).
    change (map Courses.id ?l) with (Courses.id <$> l).
    rewrite list_fmap_insert. simpl. rewrite list_insert_id; [exact Hinc |].
    rewrite list_lookup_fmap, Hl. reflexivity.
  - unfold Courses.remove, bind, get, put, throw, Courses.find_by_id.
    destruct (list_find _ (Courses.courses this)) as [[idx existing] |]; simpl;
      [| exact Hinc].
    change (map Courses.id ?l) with (Courses.id <$> l). rewrite list_fmap_delete.
    apply increasing_delete. exact Hinc.
Qed.

(** X19: the stored order is the order of creation: in every reachable
    state of either service the identifiers of the stored records ascend
    strictly along the list, so an unfiltered listing shows the records by
    ascending identifier. *)
Theorem stored_ids_ascend :
  (forall (this : Users.UsersService) (a b : nat) (u v : Users.UserResponseDto),
     UsersRun.reachable this ->
     (a < b)%nat ->
     Users.users this !! a = Some u -> Users.users this !! b = Some v ->
     Users.id u < Users.id v)
  /\
  (forall (this : Courses.CoursesService) (a b : nat) (c d : Courses.CourseResponseDto),
     CoursesRun.reachable this ->
     (a < b)%nat ->
     Courses.courses this !! a = Some c -> Courses.courses this !! b = Some d ->
     Courses.id c < Courses.id d).
Proof.
  split.
  - intros this a b u v [cs ->] Hab Ha Hb.
    assert (Hinv : forall cs s, UsersRun.well_formed s -> increasing (UsersRun.ids s) ->
                     increasing (UsersRun.ids (UsersRun.run cs s))).
    { clear. intros cs. induction cs as [| c cs IH]; intros s Hwf Hinc; simpl;
        [exact Hinc |].
      apply IH; [apply exec_well_formed | apply users_exec_increasing]; assumption. }
    apply (Hinv cs Users.initial well_formed_initial) with (a := a) (b := b).
    + intros [| [| [| ?]]] [| [| [| ?]]] x y Hlt Hx Hy; simpl in *;
        try discriminate; try lia; injection Hx as <-; injection Hy as <-; lia.
    + exact Hab.
    + unfold UsersRun.ids. change (map Users.id ?l) with (Users.id <$> l).
      rewrite list_lookup_fmap, Ha. reflexivity.
    + unfold UsersRun.ids. change (map Users.id ?l) with (Users.id <$> l).
      rewrite list_lookup_fmap, Hb. reflexivity.
  - intros this a b c d [cs ->] Hab Ha Hb.
    assert (Hinv : forall cs s, CoursesRun.well_formed s -> increasing (CoursesRun.ids s) ->
                     increasing (CoursesRun.ids (CoursesRun.run cs s))).
    { clear. intros cs. induction cs as [| c cs IH]; intros s Hwf Hinc; simpl;
        [exact Hinc |].
      apply IH; [apply courses_exec_well_formed | apply courses_exec_increasing];
        assumption. }
    apply (Hinv cs Courses.initial
             (courses_reachable_well_formed _ ltac:(exists []; reflexivity)))
      with (a := a) (b := b).
    + intros [| [| [| ?]]] [| [| [| ?]]] x y Hlt Hx Hy; simpl in *;
        try discriminate; try lia; injection Hx as <-; injection Hy as <-; lia.
    + exact Hab.
    + unfold CoursesRun.ids. change (map Courses.id ?l) with (Courses.id <$> l).
      rewrite list_lookup_fmap, Ha. reflexivity.
    + unfold CoursesRun.ids. change (map Courses.id ?l) with (Courses.id <$> l).
      rewrite list_lookup_fmap, Hb. reflexivity.
Qed.

Lemma stored_ids_ascend_witness :
  exists u v,
    Users.users
      (UsersRun.run
         [UsersRun.CallRemove 2;
          UsersRun.CallCreate
            (Users.CreateUserDto.mk "ann@lms.com" "SecurePass123!" "Ann" "Doe"
                                    Users.STUDENT None None) 5 5]
         Users.initial) !! 1%nat = Some u
    /\ Users.users
         (UsersRun.run
            [UsersRun.CallRemove 2;
             UsersRun.CallCreate
               (Users.CreateUserDto.mk "ann@lms.com" "SecurePass123!" "Ann" "Doe"
                                       Users.STUDENT None None) 5 5]
            Users.initial) !! 2%nat = Some v
    /\ Users.id u < Users.id v.
Proof.
  do 2 eexists. split; [vm_compute; reflexivity |]. split; [vm_compute; reflexivity |].
  apply (proj1 stored_ids_ascend
           (UsersRun.run
              [UsersRun.CallRemove 2;
               UsersRun.CallCreate
                 (Users.CreateUserDto.mk "ann@lms.com" "SecurePass123!" "Ann" "Doe"
                                         Users.STUDENT None None) 5 5]
              Users.initial) 1%nat 2%nat).
  - eexists. reflexivity.
  - lia.
  - vm_compute. reflexivity.
  - vm_compute. reflexivity.
Defined.
